(** * The station actor of the RFID self-checkin hub (client.go)

    A shallow embedding of [Client.Run] and of the helpers it calls, and the
    properties of the station state machine stated over it.

    One iteration of the [for { select { ... } }] loop of [Run] is one call
    of [step]: it consumes one input (a UI message from [fromKoha], a device
    response from [fromRFID], or the quit signal) and returns the new client
    together with the trace of the effects performed, in program order.

    The goroutines that feed the channels ([initRFID], [readFromKoha],
    [readFromRFID]) are the producers of the inputs; each is modelled on its
    own, over the results of the reads and writes it performs. The actor is
    the only writer of the fields of [Client] modelled here, and it handles
    one input at a time. *)

From stdpp Require Import gmap strings list.

Open Scope string_scope.

(** ** Strings *)

(** Go's [strings.HasPrefix(s, prefix)]. *)
Fixpoint HasPrefix (s prefix : string) {struct prefix} : bool :=
  match prefix, s with
  | EmptyString, _ => true
  | String p prefix', String a s' => if Ascii.eqb a p then HasPrefix s' prefix' else false
  | String _ _, EmptyString => false
  end.

(** The Go slice expression [s[n:]], for [n <= len(s)]. *)
Fixpoint slice_from (n : nat) (s : string) : string :=
  match n, s with
  | O, _ => s
  | S n', String _ s' => slice_from n' s'
  | S _, EmptyString => EmptyString
  end.

(** Go's [strings.TrimPrefix]: [s] without the leading [prefix]; [s] itself
    when it does not start with [prefix]. *)
Definition TrimPrefix (s prefix : string) : string :=
  if HasPrefix s prefix then slice_from (String.length prefix) s else s.

(** client.go, [stripLeading10]. *)
Definition stripLeading10 (barcode : string) : string :=
  TrimPrefix barcode "10".

(** ** Data *)

(** Modelled from the spec: the declaration of [RFIDState] is not in
    client.go. The five states [Run] names keep their source names;
    [RFIDIdle] is the initial state of the specification, which the code of
    [Run] never names. *)
Inductive RFIDState : Type :=
  | RFIDIdle
  | RFIDCheckinWaitForBegOK
  | RFIDCheckin
  | RFIDWaitForCheckinAlarmOn
  | RFIDWaitForCheckinAlarmLeave
  | RFIDWaitForEndOK.

#[global] Instance RFIDState_eq_dec : EqDecision RFIDState.
Proof. solve_decision. Defined.

(** Modelled from the spec: the device commands (initialize, begin scan, end
    scan, alarm on, alarm off). client.go names [cmdInitVersion],
    [cmdBeginScan], [cmdAlarmOn] and [cmdAlarmLeave], the last one being the
    command that releases the tag; it never names an end-scan command. *)
Inductive RFIDCmd : Type :=
  | cmdInitVersion
  | cmdBeginScan
  | cmdEndScan
  | cmdAlarmOn
  | cmdAlarmLeave.

#[global] Instance RFIDCmd_eq_dec : EqDecision RFIDCmd.
Proof. solve_decision. Defined.

(** [RFIDReq{Cmd: ...}]: [Run] sets no other field. *)
Record RFIDReq : Type := { Cmd : RFIDCmd }.

(** The decoded device response: [resp.OK], [resp.Barcode], [resp.Tag]. *)
Module Resp.
Record RFIDResp : Type := { OK : bool; Barcode : string; Tag : string }.
End Resp.
Export Resp (RFIDResp).

(** The item of a UI message, with the fields [Run] reads ([Barcode],
    [Unknown], [TransactionFailed]) and the display title. *)
Record ItemInfo : Type :=
  { Barcode : string; Title : string; Unknown : bool; TransactionFailed : bool }.

(** The UI message. The Go zero value [Message{}] is [zeroMessage]. *)
Record Message : Type :=
  { Action : string;
    Branch : string;
    Item : ItemInfo;
    RFIDError : bool;
    SIPError : bool;
    ErrorMessage : string }.

Definition zeroItem : ItemInfo :=
  {| Barcode := ""; Title := ""; Unknown := false; TransactionFailed := false |}.

Definition zeroMessage : Message :=
  {| Action := ""; Branch := ""; Item := zeroItem;
     RFIDError := false; SIPError := false; ErrorMessage := "" |}.

(** [c.current.Action = a]. *)
Definition withAction (a : string) (m : Message) : Message :=
  {| Action := a; Branch := Branch m; Item := Item m;
     RFIDError := RFIDError m; SIPError := SIPError m;
     ErrorMessage := ErrorMessage m |}.

(** The fields of [Client] that [Run] reads or writes. The maps are the Go
    maps [items], [failedAlarmOn] and [failedAlarmOff]; they are allocated
    by the constructor of the client, so an assignment never meets a nil
    map. *)
Record Client : Type :=
  { state : RFIDState;
    branch : string;
    current : Message;
    items : gmap string Message;
    failedAlarmOn : gmap string string;
    failedAlarmOff : gmap string string;
    IP : string }.

(** The request handed to [DoSIPCall], as the call of the builder that forms
    it: [sipFormMsgItemStatus(barcode)] or [sipFormMsgCheckin(branch,
    barcode)]. The builders themselves are not in client.go: a value of this
    type is the call as [Run] writes it, the name of the builder with the
    arguments [Run] gives it, and says nothing about the message the builder
    returns. No result below uses that calls with different arguments are
    different requests. *)
Inductive SIPRequest : Type :=
  | sipFormMsgItemStatus (barcode : string)
  | sipFormMsgCheckin (branch barcode : string).

(** The parser argument of [DoSIPCall]. *)
Inductive SIPParser : Type :=
  | itemStatusParse
  | checkinParse.

(** What the actor does to the outside, in program order. Calls of [log]
    are left out: they touch nothing the actor reads. [QuitSignal] is the
    send on the quit channel; the loop of [Run] sees it later as the input
    [Quit]. *)
Inductive Event : Type :=
  | RFIDReset                                   (* c.rfid.Reset() *)
  | ToRFID (req : RFIDReq)                      (* c.rfidconn.Write(c.rfid.GenRequest(req)) *)
  | ToKoha (msg : Message)                      (* c.sendToKoha(msg) *)
  | SIPCall (req : SIPRequest) (p : SIPParser)  (* DoSIPCall(cfg, sipPool, req, p) *)
  | QuitSignal                                  (* c.quit <- true *)
  | CloseUI.                                    (* c.write(websocket.CloseMessage, []byte{}) *)

(** The answers of the outside world during one turn of the actor:
    [DoSIPCall] returns a message and an error ([None] for [nil], otherwise
    the text of [err.Error()]); [rfidWrite] is the error of the write on the
    device connection. *)
Record Env : Type :=
  { DoSIPCall : SIPRequest -> SIPParser -> Message * option string;
    rfidWrite : RFIDReq -> option string }.

(** ** Actions of the actor: client state and effect trace *)

Definition Act (A : Type) : Type := Client -> A * Client * list Event.

#[global] Instance Act_ret : MRet Act := fun A a c => (a, c, []).

#[global] Instance Act_bind : MBind Act := fun A B k m c =>
  let '(a, c1, t1) := m c in
  let '(b, c2, t2) := k a c1 in
  (b, c2, (t1 ++ t2)%list).

Definition emit (e : Event) : Act unit := fun c => (tt, c, [e]).

Definition get {A : Type} (f : Client -> A) : Act A := fun c => (f c, c, []).

Definition modify (f : Client -> Client) : Act unit := fun c => (tt, f c, []).

Definition setState (s : RFIDState) : Act unit :=
  modify (fun c =>
    {| state := s; branch := branch c; current := current c; items := items c;
       failedAlarmOn := failedAlarmOn c; failedAlarmOff := failedAlarmOff c;
       IP := IP c |}).

Definition setBranch (b : string) : Act unit :=
  modify (fun c =>
    {| state := state c; branch := b; current := current c; items := items c;
       failedAlarmOn := failedAlarmOn c; failedAlarmOff := failedAlarmOff c;
       IP := IP c |}).

Definition setCurrent (m : Message) : Act unit :=
  modify (fun c =>
    {| state := state c; branch := branch c; current := m; items := items c;
       failedAlarmOn := failedAlarmOn c; failedAlarmOff := failedAlarmOff c;
       IP := IP c |}).

(** [c.items[k] = m]. *)
Definition putItem (k : string) (m : Message) : Act unit :=
  modify (fun c =>
    {| state := state c; branch := branch c; current := current c;
       items := <[k := m]> (items c);
       failedAlarmOn := failedAlarmOn c; failedAlarmOff := failedAlarmOff c;
       IP := IP c |}).

(** [c.failedAlarmOn[k] = tag]. *)
Definition putFailedAlarmOn (k tag : string) : Act unit :=
  modify (fun c =>
    {| state := state c; branch := branch c; current := current c;
       items := items c;
       failedAlarmOn := <[k := tag]> (failedAlarmOn c);
       failedAlarmOff := failedAlarmOff c;
       IP := IP c |}).

(** [c.sendToKoha(msg)]: every failure inside it returns silently, so the
    actor sees no result. *)
Definition sendToKoha (msg : Message) : Act unit := emit (ToKoha msg).

(** [c.quit <- true]. *)
Definition quit : Act unit := emit QuitSignal.

(** The CONNECT message of a device failure. *)
Definition connectRFIDError (e : string) : Message :=
  {| Action := "CONNECT"; Branch := ""; Item := zeroItem;
     RFIDError := true; SIPError := false; ErrorMessage := e |}.

(** The CONNECT message of a backend failure. *)
Definition connectSIPError (e : string) : Message :=
  {| Action := "CONNECT"; Branch := ""; Item := zeroItem;
     RFIDError := false; SIPError := true; ErrorMessage := e |}.

Section Actor.

Variable env : Env.

(** client.go, [sendToRFID]: write the encoded request; when the write
    fails, tell the UI and signal quit. *)
Definition sendToRFID (req : RFIDReq) : Act unit :=
  emit (ToRFID req) ;;
  match rfidWrite env req with
  | Some e => sendToKoha (connectRFIDError e) ;; quit
  | None => mret tt
  end.

(** [c.current, err = DoSIPCall(...)]: [c.current] is assigned also when
    the call fails. *)
Definition sipCall (req : SIPRequest) (p : SIPParser) : Act (option string) :=
  emit (SIPCall req p) ;;
  setCurrent (fst (DoSIPCall env req p)) ;;
  mret (snd (DoSIPCall env req p)).

(** [case msg := <-c.fromKoha]: the switch on [msg.Action]. *)
Definition onKoha (msg : Message) : Act unit :=
  if String.eqb (Action msg) "CHECKIN" then
    setState RFIDCheckinWaitForBegOK ;;
    emit RFIDReset ;;
    setBranch (Branch msg) ;;
    sendToRFID {| Cmd := cmdBeginScan |}
  else if String.eqb (Action msg) "END" then
    setState RFIDWaitForEndOK
  else if String.eqb (Action msg) "ITEM-INFO" then mret tt
  else if String.eqb (Action msg) "WRITE" then mret tt
  else if String.eqb (Action msg) "CHECKOUT" then mret tt
  else if String.eqb (Action msg) "RETRY-ALARM-ON" then mret tt
  else if String.eqb (Action msg) "RETRY-ALARM-OFF" then mret tt
  else mret tt.

(** The [!resp.OK] branch of [case RFIDCheckin]. The inner action returns
    [false] where the Go code leaves the switch by [break] after a failed
    item-status call. *)
Definition onScanFailure (resp : RFIDResp) : Act unit :=
  cur ← get current;
  go_on ← (if negb (String.eqb (stripLeading10 (Resp.Barcode resp)) (Barcode (Item cur)))
           then
             err ← sipCall (sipFormMsgItemStatus (Resp.Barcode resp)) itemStatusParse;
             match err with
             | Some e =>
                 sendToKoha (connectSIPError e) ;;
                 quit ;;
                 mret false
             | None => mret true
             end
           else mret true);
  if go_on : bool then
    cur' ← get current;
    setCurrent (withAction "CHECKIN" cur') ;;
    putItem (stripLeading10 (Resp.Barcode resp)) (withAction "CHECKIN" cur') ;;
    sendToRFID {| Cmd := cmdAlarmLeave |} ;;
    setState RFIDWaitForCheckinAlarmLeave
  else mret tt.

(** The [resp.OK] branch of [case RFIDCheckin]. *)
Definition onScanSuccess (resp : RFIDResp) : Act unit :=
  br ← get branch;
  err ← sipCall (sipFormMsgCheckin br (Resp.Barcode resp)) checkinParse;
  match err with
  | Some e =>
      sendToKoha {| Action := "CHECKIN"; Branch := ""; Item := zeroItem;
                    RFIDError := false; SIPError := true; ErrorMessage := e |}
  | None =>
      cur ← get current;
      if Unknown (Item cur) || TransactionFailed (Item cur) then
        sendToRFID {| Cmd := cmdAlarmLeave |} ;;
        setState RFIDWaitForCheckinAlarmLeave
      else
        putItem (stripLeading10 (Resp.Barcode resp)) cur ;;
        putFailedAlarmOn (stripLeading10 (Resp.Barcode resp)) (Resp.Tag resp) ;;
        sendToRFID {| Cmd := cmdAlarmOn |} ;;
        setState RFIDWaitForCheckinAlarmOn
  end.

(** [case resp := <-c.fromRFID]: the switch on [c.state], which has the
    two cases [RFIDCheckinWaitForBegOK] and [RFIDCheckin] and no default. *)
Definition onRFID (resp : RFIDResp) : Act unit :=
  st ← get state;
  match st with
  | RFIDCheckinWaitForBegOK =>
      if negb (Resp.OK resp) then
        sendToKoha {| Action := "CONNECT"; Branch := ""; Item := zeroItem;
                      RFIDError := true; SIPError := false; ErrorMessage := "" |} ;;
        quit
      else setState RFIDCheckin
  | RFIDCheckin =>
      if negb (Resp.OK resp) then onScanFailure resp else onScanSuccess resp
  | _ => mret tt
  end.

(** What the [select] of [Run] can receive. *)
Inductive Input : Type :=
  | FromKoha (msg : Message)
  | FromRFID (resp : RFIDResp)
  | Quit.

(** One iteration of the loop of [Run]. The boolean is [false] when [Run]
    returns (the quit case), [true] when the loop goes on. *)
Definition step (i : Input) : Act bool :=
  match i with
  | FromKoha msg => onKoha msg ;; mret true
  | FromRFID resp => onRFID resp ;; mret true
  | Quit => emit CloseUI ;; mret false
  end.

(** The loop of [Run] over the inputs it receives, in order of arrival. *)
Fixpoint run (inputs : list Input) : Act unit :=
  match inputs with
  | [] => mret tt
  | i :: rest =>
      continue ← step i;
      if continue : bool then run rest else mret tt
  end.

End Actor.

(** ** Reading a trace *)

(** The commands written to the device. *)
Definition deviceCmds (t : list Event) : list RFIDCmd :=
  omap (fun e => match e with ToRFID r => Some (Cmd r) | _ => None end) t.

(** The messages sent to the UI. *)
Definition uiMsgs (t : list Event) : list Message :=
  omap (fun e => match e with ToKoha m => Some m | _ => None end) t.

(** The backend calls. *)
Definition sipCalls (t : list Event) : list (SIPRequest * SIPParser) :=
  omap (fun e => match e with SIPCall r p => Some (r, p) | _ => None end) t.

(** Whether the actor asked for its own shutdown. *)
Definition quitSignalled (t : list Event) : bool :=
  existsb (fun e => match e with QuitSignal => true | _ => false end) t.

(** The client after an action, and the trace of the action. *)
Definition after {A : Type} (r : A * Client * list Event) : Client := snd (fst r).
Definition trace {A : Type} (r : A * Client * list Event) : list Event := snd r.

(** ** Concrete stations used in the examples *)

(** Modelled from the spec: the constructor of [Client] is not in
    client.go; a new station is Idle and its maps are empty. *)
Definition newClient (ip : string) : Client :=
  {| state := RFIDIdle; branch := ""; current := zeroMessage; items := ∅;
     failedAlarmOn := ∅; failedAlarmOff := ∅; IP := ip |}.

(** A UI message that carries an action and nothing else. *)
Definition uiAction (a : string) : Message := withAction a zeroMessage.

(** A UI message that carries an action and the barcode of an item. *)
Definition uiItemAction (a barcode : string) : Message :=
  {| Action := a; Branch := "";
     Item := {| Barcode := barcode; Title := ""; Unknown := false;
                TransactionFailed := false |};
     RFIDError := false; SIPError := false; ErrorMessage := "" |}.

Definition uiCheckin (b : string) : Message :=
  {| Action := "CHECKIN"; Branch := b; Item := zeroItem;
     RFIDError := false; SIPError := false; ErrorMessage := "" |}.

(** The backend answer for a known item whose transaction went through. *)
Definition itemResult (barcode title : string) : Message :=
  {| Action := ""; Branch := "";
     Item := {| Barcode := barcode; Title := title; Unknown := false;
                TransactionFailed := false |};
     RFIDError := false; SIPError := false; ErrorMessage := "" |}.

(** A world where the backend knows item A1 and the device link works. *)
Definition env_ok : Env :=
  {| DoSIPCall := fun _ _ => (itemResult "A1" "A title", None);
     rfidWrite := fun _ => None |}.

(** A world where every backend call fails. *)
Definition env_sip_down : Env :=
  {| DoSIPCall := fun _ _ => (zeroMessage, Some "sip: connection refused");
     rfidWrite := fun _ => None |}.

Definition respOK (barcode tag : string) : RFIDResp :=
  {| Resp.OK := true; Resp.Barcode := barcode; Resp.Tag := tag |}.

Definition respNOK (barcode tag : string) : RFIDResp :=
  {| Resp.OK := false; Resp.Barcode := barcode; Resp.Tag := tag |}.

(** CHECKIN for branch B1, the device accepts the scan session: the station
    is scanning. *)
Definition scanning : Client :=
  after (run env_ok [FromKoha (uiCheckin "B1"); FromRFID (respOK "" "")]
           (newClient "10.0.0.7")).

(** Then item 10A1 with tag E004 is scanned and checked in: the station
    waits for the answer to its alarm-on command. *)
Definition awaitingAlarmOn : Client :=
  after (onRFID env_ok (respOK "10A1" "E004") scanning).

(** A world where the backend does not know the scanned item. *)
Definition env_unknown : Env :=
  {| DoSIPCall := fun _ _ =>
       ({| Action := ""; Branch := "";
           Item := {| Barcode := "X9"; Title := ""; Unknown := true;
                      TransactionFailed := false |};
           RFIDError := false; SIPError := false; ErrorMessage := "" |}, None);
     rfidWrite := fun _ => None |}.

(** Item 10X9 is scanned while scanning, the backend does not know it: the
    station waits for the answer to its alarm-off command. *)
Definition awaitingAlarmLeave : Client :=
  after (onRFID env_unknown (respOK "10X9" "E005") scanning).

(** ** The goroutines around the actor *)

(** The answers of the outside world to [initRFID]: the error of [net.Dial],
    of the write of the version request, of the first read, and the result
    of [c.rfid.ParseResponse] on what was read (a response and an error).
    An error is [None] for [nil] and otherwise the text of [err.Error()]. *)
Record InitEnv : Type :=
  { dialErr : option string;
    initWriteErr : option string;
    initReadErr : option string;
    initParse : RFIDResp * option string }.

(** What [initRFID] does, in program order. *)
Inductive InitEvent : Type :=
  | DialRFID                       (* net.Dial("tcp", ...) *)
  | InitWrite (req : RFIDReq)      (* c.rfidconn.Write(c.rfid.GenRequest(req)) *)
  | InitRead                       (* r.Read(c.readBuf) *)
  | InitToKoha (msg : Message)     (* c.sendToKoha(msg) *)
  | InitQuit                       (* c.quit <- true *)
  | SpawnReader.                   (* go c.readFromRFID(r) *)

(** [initError = err.Error()] when [err != nil]. *)
Definition orError (initError : string) (err : option string) : string :=
  match err with
  | Some e => e
  | None => initError
  end.

(** The value of [initError] when [initRFID] tests it: every later error
    replaces an earlier one, and a response that is not OK counts only when
    the text is still empty. *)
Definition initErrorOf (w : InitEnv) : string :=
  let initError := orError "" (initWriteErr w) in
  let initError := orError initError (initReadErr w) in
  let initError := orError initError (snd (initParse w)) in
  if String.eqb initError "" && negb (Resp.OK (fst (initParse w)))
  then "RFID-unit responded with NOK"
  else initError.

(** client.go, [initRFID]. *)
Definition initRFID (w : InitEnv) : list InitEvent :=
  DialRFID ::
  match dialErr w with
  | Some e => [InitToKoha (connectRFIDError e); InitQuit]
  | None =>
      InitWrite {| Cmd := cmdInitVersion |} :: InitRead ::
      (if negb (String.eqb (initErrorOf w) "")
       then [InitToKoha (connectRFIDError (initErrorOf w)); InitQuit]
       else [SpawnReader; InitToKoha (withAction "CONNECT" zeroMessage)])
  end.

Definition initUIMsgs (t : list InitEvent) : list Message :=
  omap (fun e => match e with InitToKoha m => Some m | _ => None end) t.

Definition initWrites (t : list InitEvent) : list RFIDCmd :=
  omap (fun e => match e with InitWrite r => Some (Cmd r) | _ => None end) t.

Definition initQuit (t : list InitEvent) : bool :=
  existsb (fun e => match e with InitQuit => true | _ => false end) t.

Definition readerSpawned (t : list InitEvent) : bool :=
  existsb (fun e => match e with SpawnReader => true | _ => false end) t.

(** One turn of the loop of [readFromRFID]: [r.ReadBytes] fails, or the
    frame read does not parse, or it parses to a response. *)
Inductive RFIDRead : Type :=
  | ReadFailed (e : string)
  | ParseFailed (e : string)
  | Frame (resp : RFIDResp).

(** client.go, [readFromRFID], over the reads of the device connection in
    order: the responses sent on [fromRFID], and the effects of the way out
    of the loop. An empty list is a reader still waiting for a frame. *)
Fixpoint readFromRFID (reads : list RFIDRead) : list RFIDResp * list Event :=
  match reads with
  | [] => ([], [])
  | ReadFailed e :: _ => ([], [ToKoha (connectRFIDError e); QuitSignal])
  | ParseFailed e :: _ => ([], [ToKoha (connectRFIDError e); QuitSignal])
  | Frame resp :: rest =>
      let '(rs, t) := readFromRFID rest in (resp :: rs, t)
  end.

Definition isFrame (r : RFIDRead) : bool :=
  match r with Frame _ => true | _ => false end.

(** The responses of the frames of a list of reads. *)
Definition framesOf (reads : list RFIDRead) : list RFIDResp :=
  omap (fun r => match r with Frame resp => Some resp | _ => None end) reads.

(** One turn of the loop of [readFromKoha]: [c.conn.ReadMessage] fails, or
    [json.Unmarshal] rejects the frame, or the frame is a message. *)
Inductive KohaRead : Type :=
  | KohaReadFailed
  | Malformed
  | Decoded (msg : Message).

(** client.go, [readFromKoha], over the reads of the UI connection in order:
    the messages sent on [fromKoha], and whether the loop was left, which
    runs the deferred [c.hub.Disconnect(c)] and [c.conn.Close()]. *)
Fixpoint readFromKoha (reads : list KohaRead) : list Message * bool :=
  match reads with
  | [] => ([], false)
  | KohaReadFailed :: _ => ([], true)
  | Malformed :: rest => readFromKoha rest
  | Decoded msg :: rest =>
      let '(ms, closed) := readFromKoha rest in (msg :: ms, closed)
  end.

Definition isReadFailure (r : KohaRead) : bool :=
  match r with KohaReadFailed => true | _ => false end.

(** The messages of the well-formed frames of a list of reads. *)
Definition decodedOf (reads : list KohaRead) : list Message :=
  omap (fun r => match r with Decoded m => Some m | _ => None end) reads.

(** The same world with other results of the device writes. *)
Definition withWrites (env : Env) (w : RFIDReq -> option string) : Env :=
  {| DoSIPCall := DoSIPCall env; rfidWrite := w |}.

Definition isQuit (i : Input) : bool :=
  match i with Quit => true | _ => false end.

(** A world where the device link is broken: every write fails. *)
Definition env_link_down : Env :=
  {| DoSIPCall := fun _ _ => (itemResult "A1" "A title", None);
     rfidWrite := fun _ => Some "write: broken pipe" |}.

(** Whether a UI message is a CONNECT message that carries an error flag. *)
Definition isConnectError (m : Message) : bool :=
  String.eqb (Action m) "CONNECT" && (RFIDError m || SIPError m).

(** A second session after item A1: CHECKIN for branch B1 again, the device
    accepts, and the station scans with A1 as its current item. *)
Definition awaitingScanC3 : Client :=
  after (run env_ok [FromKoha (uiCheckin "B1"); FromRFID (respOK "" "")]
           awaitingAlarmOn).

(** ** [Run] as a whole *)

(** client.go, [Run]: line 46 starts [initRFID] as a goroutine, which after
    a successful handshake starts [readFromRFID]; then the loop handles the
    inputs. The three run side by side, so their effects are kept apart,
    each in its own order: the order between them is the scheduler's. The
    inputs of the loop are left free; those a station really receives (the
    responses the reader passes on, a quit for a quit signal) are among
    them. *)
Record RunEffects : Type :=
  { handshake : list InitEvent;
    reader : list Event;
    loop : list Event }.

Definition Run (w : InitEnv) (reads : list RFIDRead) (env : Env)
    (inputs : list Input) (c : Client) : RunEffects :=
  {| handshake := initRFID w;
     reader := if readerSpawned (initRFID w) then snd (readFromRFID reads) else [];
     loop := trace (run env inputs c) |}.

(** Everything written to the device during a [Run]. *)
Definition allDeviceCmds (r : RunEffects) : list RFIDCmd :=
  (initWrites (handshake r) ++ deviceCmds (reader r) ++ deviceCmds (loop r))%list.

(** Every backend call made during a [Run]. *)
Definition allSIPCalls (r : RunEffects) : list (SIPRequest * SIPParser) :=
  (sipCalls (reader r) ++ sipCalls (loop r))%list.

(** Every message sent to the UI during a [Run]. *)
Definition allUIMsgs (r : RunEffects) : list Message :=
  (initUIMsgs (handshake r) ++ uiMsgs (reader r) ++ uiMsgs (loop r))%list.

(** Whether quit was signalled during a [Run]. *)
Definition anyQuit (r : RunEffects) : bool :=
  initQuit (handshake r) || quitSignalled (reader r) || quitSignalled (loop r).

(** Whether a UI message is a CONNECT message without an error flag. *)
Definition isPlainConnect (m : Message) : bool :=
  String.eqb (Action m) "CONNECT" && negb (RFIDError m || SIPError m).

(** ** Unfolding the actions *)

Ltac act_unfold :=
  cbv [onRFID onKoha onScanFailure onScanSuccess sendToRFID sipCall sendToKoha
       quit setState setBranch setCurrent putItem putFailedAlarmOn emit get
       modify mbind mret Act_bind Act_ret after trace step].

(** Case analysis of one turn: the input, the state, the flags of the
    response and the answers of the world. *)
Ltac koha_cases msg :=
  try unfold step; try unfold onKoha;
  repeat match goal with
         | |- context [String.eqb (Action msg) ?a] =>
             destruct (String.eqb (Action msg) a) eqn:?
         end.

Ltac world_cases env :=
  repeat match goal with
         | |- context [DoSIPCall env ?r ?p] =>
             let m := fresh "m" in let e := fresh "e" in
             destruct (DoSIPCall env r p) as [m [e|]]; simpl
         | |- context [rfidWrite env ?r] => destruct (rfidWrite env r); simpl
         | |- context [Unknown ?i || TransactionFailed ?i] =>
             destruct (Unknown i || TransactionFailed i); simpl
         | |- context [String.eqb ?a ?b] => destruct (String.eqb a b) eqn:?; simpl
         end.

Ltac step_cases env i c :=
  destruct i as [?msg|?resp|];
  [ koha_cases msg; act_unfold; simpl; world_cases env
  | act_unfold; destruct (state c) eqn:?; simpl;
    try (destruct (Resp.OK resp) eqn:?; simpl); world_cases env
  | act_unfold; simpl ].

(** * Properties *)

(** ** Normalisation of barcodes *)

Lemma HasPrefix_app (p s : string) : HasPrefix (p +:+ s) p = true.
Proof.
  induction p as [|a p IH]; simpl; [done|].
  by rewrite Ascii.eqb_refl.
Qed.

Lemma slice_from_app (p s : string) : slice_from (String.length p) (p +:+ s) = s.
Proof. induction p as [|a p IH]; simpl; done. Qed.

Lemma TrimPrefix_app (p s : string) : TrimPrefix (p +:+ s) p = s.
Proof. unfold TrimPrefix. by rewrite HasPrefix_app, slice_from_app. Qed.

Lemma TrimPrefix_no_prefix (s p : string) :
  HasPrefix s p = false -> TrimPrefix s p = s.
Proof. unfold TrimPrefix. by intros ->. Qed.

(** A string starts with "10" exactly when it is "10" followed by a rest. *)
Lemma HasPrefix_10 (b : string) :
  HasPrefix b "10" = true <-> exists rest, b = "10" +:+ rest.
Proof.
  split.
  - destruct b as [|a [|a' rest]]; simpl; try done.
    + by destruct (Ascii.eqb a _).
    + repeat match goal with
             | |- context [Ascii.eqb ?x ?y] =>
                 destruct (Ascii.eqb_spec x y) as [->|]; [|done]
             end.
      intros _. by exists rest.
  - intros [rest ->]. apply (HasPrefix_app "10").
Qed.

(** C9. [stripLeading10] removes the prefix "10" once, from the front only:
    a barcode "10" ++ rest becomes rest, whatever rest is, so a second "10"
    at the front of rest (or anywhere later) stays, as in "1010A1", which
    becomes "10A1"; and the result of normalising any barcode is the
    barcode itself or the barcode without its leading "10". *)
Theorem stripLeading10_strips_prefix_once (b rest : string) :
  stripLeading10 ("10" +:+ rest) = rest
  /\ stripLeading10 ("10" +:+ "10" +:+ rest) = "10" +:+ rest
  /\ stripLeading10 "1010A1" = "10A1"
  /\ (if HasPrefix b "10" then b = "10" +:+ stripLeading10 b
      else stripLeading10 b = b).
Proof.
  split; [apply (TrimPrefix_app "10")|].
  split; [apply (TrimPrefix_app "10")|].
  split; [reflexivity|].
  destruct (HasPrefix b "10") eqn:Hp.
  - apply HasPrefix_10 in Hp as [r ->].
    unfold stripLeading10. by rewrite (TrimPrefix_app "10").
  - by apply TrimPrefix_no_prefix.
Qed.

(** A device response in a state that the switch of [Run] has no case for
    does nothing at all. *)
Lemma onRFID_no_case (env : Env) (c : Client) (resp : RFIDResp) :
  state c <> RFIDCheckinWaitForBegOK -> state c <> RFIDCheckin ->
  onRFID env resp c = (tt, c, []).
Proof.
  intros H1 H2. act_unfold.
  destruct (state c); simpl; congruence.
Qed.

(** The empty cases of the switch on [msg.Action] do nothing at all. *)
Lemma onKoha_stub (env : Env) (c : Client) (msg : Message) :
  Action msg <> "CHECKIN" -> Action msg <> "END" ->
  onKoha env msg c = (tt, c, []).
Proof.
  intros H1 H2. unfold onKoha.
  destruct (String.eqb_spec (Action msg) "CHECKIN"); [done|].
  destruct (String.eqb_spec (Action msg) "END"); [done|].
  repeat (match goal with |- context [String.eqb ?a ?b] => destruct (String.eqb a b) end);
    reflexivity.
Qed.

(** ** Device responses *)

(** C10. A device response handled in a state other than
    [RFIDCheckinWaitForBegOK] and [RFIDCheckin] (so in both alarm-wait
    states, in [RFIDWaitForEndOK] and when idle) is discarded: the client is
    unchanged and the trace is empty, so no UI message and no device command
    is sent. *)
Theorem device_response_discarded (env : Env) (c : Client) (resp : RFIDResp) :
  state c <> RFIDCheckinWaitForBegOK ->
  state c <> RFIDCheckin ->
  after (onRFID env resp c) = c
  /\ trace (onRFID env resp c) = []
  /\ uiMsgs (trace (onRFID env resp c)) = []
  /\ deviceCmds (trace (onRFID env resp c)) = [].
Proof.
  intros H1 H2. rewrite (onRFID_no_case env c resp H1 H2). done.
Qed.

Lemma device_response_discarded_witness :
  after (onRFID env_ok (respOK "10A1" "E004") awaitingAlarmOn) = awaitingAlarmOn
  /\ trace (onRFID env_ok (respOK "10A1" "E004") awaitingAlarmOn) = []
  /\ uiMsgs (trace (onRFID env_ok (respOK "10A1" "E004") awaitingAlarmOn)) = []
  /\ deviceCmds (trace (onRFID env_ok (respOK "10A1" "E004") awaitingAlarmOn)) = [].
Proof.
  apply (device_response_discarded env_ok awaitingAlarmOn (respOK "10A1" "E004"));
    vm_compute; discriminate.
Defined.

(** C8. While scanning, when the backend checkin call of a scanned item
    fails, the UI is sent one CHECKIN message with the backend-error flag
    and the text of the error; the state stays [RFIDCheckin], the map of
    pending items and both retry maps are unchanged, no quit is signalled,
    the loop of [Run] goes on and nothing is written to the device. *)
Theorem checkin_call_failure_reported
    (env : Env) (c : Client) (resp : RFIDResp) (m : Message) (e : string) :
  state c = RFIDCheckin ->
  Resp.OK resp = true ->
  DoSIPCall env (sipFormMsgCheckin (branch c) (Resp.Barcode resp)) checkinParse
    = (m, Some e) ->
  uiMsgs (trace (onRFID env resp c))
    = [ {| Action := "CHECKIN"; Branch := ""; Item := zeroItem;
           RFIDError := false; SIPError := true; ErrorMessage := e |} ]
  /\ state (after (onRFID env resp c)) = RFIDCheckin
  /\ items (after (onRFID env resp c)) = items c
  /\ failedAlarmOn (after (onRFID env resp c)) = failedAlarmOn c
  /\ failedAlarmOff (after (onRFID env resp c)) = failedAlarmOff c
  /\ quitSignalled (trace (onRFID env resp c)) = false
  /\ fst (fst (step env (FromRFID resp) c)) = true
  /\ deviceCmds (trace (onRFID env resp c)) = [].
Proof.
  intros Hst Hok Hsip. act_unfold.
  rewrite Hst, Hok. simpl. rewrite Hsip. simpl.
  repeat split; done.
Qed.

Lemma checkin_call_failure_reported_witness :
  uiMsgs (trace (onRFID env_sip_down (respOK "10A1" "E004") scanning))
    = [ {| Action := "CHECKIN"; Branch := ""; Item := zeroItem;
           RFIDError := false; SIPError := true;
           ErrorMessage := "sip: connection refused" |} ]
  /\ state (after (onRFID env_sip_down (respOK "10A1" "E004") scanning)) = RFIDCheckin
  /\ items (after (onRFID env_sip_down (respOK "10A1" "E004") scanning)) = items scanning
  /\ failedAlarmOn (after (onRFID env_sip_down (respOK "10A1" "E004") scanning))
     = failedAlarmOn scanning
  /\ failedAlarmOff (after (onRFID env_sip_down (respOK "10A1" "E004") scanning))
     = failedAlarmOff scanning
  /\ quitSignalled (trace (onRFID env_sip_down (respOK "10A1" "E004") scanning)) = false
  /\ fst (fst (step env_sip_down (FromRFID (respOK "10A1" "E004")) scanning)) = true
  /\ deviceCmds (trace (onRFID env_sip_down (respOK "10A1" "E004") scanning)) = [].
Proof.
  apply (checkin_call_failure_reported env_sip_down scanning (respOK "10A1" "E004")
           zeroMessage "sip: connection refused"); reflexivity.
Defined.

(** A barcode with the prefix is never its own normalised form. *)
Lemma prefixed_barcode_differs (rest : string) : "10" +:+ rest <> rest.
Proof.
  intros Heq. apply (f_equal String.length) in Heq.
  assert (String.length ("10" +:+ rest) = S (S (String.length rest))) as Hl
    by reflexivity.
  lia.
Qed.

(** C6. While scanning, on a successful scan whose backend checkin call
    succeeds: when the returned item is unknown or its transaction failed,
    the actor writes the alarm-off command ([cmdAlarmLeave]) and moves to
    [RFIDWaitForCheckinAlarmLeave], and both retry maps are as before;
    otherwise it stores the tag id of the response under the normalised
    barcode in [failedAlarmOn], writes [cmdAlarmOn] and moves to
    [RFIDWaitForCheckinAlarmOn]. The normalised barcode is the barcode
    without its leading "10": for a response with barcode "10" ++ rest the
    entry is under rest, and what was under the barcode as received is left
    alone; a barcode without the prefix is its own key. *)
Theorem checkin_success_toggles_alarm
    (env : Env) (c : Client) (resp : RFIDResp) (m : Message) :
  state c = RFIDCheckin ->
  Resp.OK resp = true ->
  DoSIPCall env (sipFormMsgCheckin (branch c) (Resp.Barcode resp)) checkinParse
    = (m, None) ->
  if Unknown (Item m) || TransactionFailed (Item m) then
    deviceCmds (trace (onRFID env resp c)) = [cmdAlarmLeave]
    /\ state (after (onRFID env resp c)) = RFIDWaitForCheckinAlarmLeave
    /\ failedAlarmOn (after (onRFID env resp c)) = failedAlarmOn c
    /\ failedAlarmOff (after (onRFID env resp c)) = failedAlarmOff c
  else
    failedAlarmOn (after (onRFID env resp c))
      = <[stripLeading10 (Resp.Barcode resp) := Resp.Tag resp]> (failedAlarmOn c)
    /\ (forall rest, Resp.Barcode resp = "10" +:+ rest ->
          failedAlarmOn (after (onRFID env resp c))
            = <[rest := Resp.Tag resp]> (failedAlarmOn c)
          /\ failedAlarmOn (after (onRFID env resp c)) !! rest = Some (Resp.Tag resp)
          /\ failedAlarmOn (after (onRFID env resp c)) !! Resp.Barcode resp
             = failedAlarmOn c !! Resp.Barcode resp)
    /\ (HasPrefix (Resp.Barcode resp) "10" = false ->
          failedAlarmOn (after (onRFID env resp c))
            = <[Resp.Barcode resp := Resp.Tag resp]> (failedAlarmOn c))
    /\ deviceCmds (trace (onRFID env resp c)) = [cmdAlarmOn]
    /\ state (after (onRFID env resp c)) = RFIDWaitForCheckinAlarmOn.
Proof.
  intros Hst Hok Hsip.
  destruct (Unknown (Item m) || TransactionFailed (Item m)) eqn:Hu.
  - act_unfold. rewrite Hst, Hok. simpl. rewrite Hsip. simpl. rewrite Hu. simpl.
    destruct (rfidWrite env _); simpl; repeat split; done.
  - assert (failedAlarmOn (after (onRFID env resp c))
              = <[stripLeading10 (Resp.Barcode resp) := Resp.Tag resp]> (failedAlarmOn c)
            /\ deviceCmds (trace (onRFID env resp c)) = [cmdAlarmOn]
            /\ state (after (onRFID env resp c)) = RFIDWaitForCheckinAlarmOn)
      as (Hfa & Hcmd & Hstate).
    { act_unfold. rewrite Hst, Hok. simpl. rewrite Hsip. simpl. rewrite Hu. simpl.
      destruct (rfidWrite env _); simpl; repeat split; done. }
    rewrite Hfa. split; [done|]. split; [|split; [|done]].
    + intros rest Hb. rewrite Hb. unfold stripLeading10.
      rewrite (TrimPrefix_app "10"). split; [done|]. split.
      * apply lookup_insert_eq.
      * apply lookup_insert_ne. apply not_eq_sym, prefixed_barcode_differs.
    + intros Hp. unfold stripLeading10. by rewrite (TrimPrefix_no_prefix _ _ Hp).
Qed.

Lemma checkin_success_toggles_alarm_witness :
  failedAlarmOn (after (onRFID env_ok (respOK "10A1" "E004") scanning))
    = <["A1" := "E004"]> (failedAlarmOn scanning)
  /\ failedAlarmOn (after (onRFID env_ok (respOK "10A1" "E004") scanning)) !! "A1"
     = Some "E004"
  /\ failedAlarmOn (after (onRFID env_ok (respOK "10A1" "E004") scanning)) !! "10A1"
     = failedAlarmOn scanning !! "10A1"
  /\ deviceCmds (trace (onRFID env_ok (respOK "10A1" "E004") scanning)) = [cmdAlarmOn]
  /\ state (after (onRFID env_ok (respOK "10A1" "E004") scanning))
     = RFIDWaitForCheckinAlarmOn.
Proof.
  destruct (checkin_success_toggles_alarm env_ok scanning (respOK "10A1" "E004")
              (itemResult "A1" "A title") eq_refl eq_refl eq_refl)
    as (_ & Hkey & _ & Hcmd & Hst).
  destruct (Hkey "A1" eq_refl) as (H1 & H2 & H3).
  exact (conj H1 (conj H2 (conj H3 (conj Hcmd Hst)))).
Defined.

(** C7, what the code does when the item-status query fails. Station
    [scanning] has no current item, the device reports an unreadable tag for
    barcode 10B2 and the backend is down: the query is issued, the UI gets
    the CONNECT message of a backend failure, quit is signalled, and the
    switch is left. So nothing is recorded under B2, no alarm-off command is
    written and the state is still [RFIDCheckin], against the claim. *)
Lemma scan_failure_failed_query_records_nothing :
  items (after (onRFID env_sip_down (respNOK "10B2" "") scanning)) !! "B2" = None
  /\ deviceCmds (trace (onRFID env_sip_down (respNOK "10B2" "") scanning)) = []
  /\ state (after (onRFID env_sip_down (respNOK "10B2" "") scanning)) = RFIDCheckin
  /\ ~ (Action <$> items (after (onRFID env_sip_down (respNOK "10B2" "") scanning)) !! "B2"
          = Some "CHECKIN"
        /\ deviceCmds (trace (onRFID env_sip_down (respNOK "10B2" "") scanning))
           = [cmdAlarmLeave]
        /\ state (after (onRFID env_sip_down (respNOK "10B2" "") scanning))
           = RFIDWaitForCheckinAlarmLeave).
Proof.
  split; [reflexivity|]. split; [reflexivity|]. split; [reflexivity|].
  intros (_ & _ & H). vm_compute in H. discriminate H.
Qed.

(** C7, as amended. While scanning, on a failed scan: the item-status query
    is issued (for the barcode as received) exactly when the normalised
    barcode differs from the barcode of the current item, and [cmdAlarmOn]
    is never written. When no query is issued, or the query succeeds, the
    current message is recorded with action CHECKIN in [items] under the
    normalised barcode, the alarm-off command ([cmdAlarmLeave]) is written
    and the state becomes [RFIDWaitForCheckinAlarmLeave]. When the query
    fails, the UI gets the CONNECT message of a backend failure, quit is
    signalled, [items] is unchanged, nothing is written to the device and
    the state stays [RFIDCheckin]. *)
Theorem scan_failure_releases_tag (env : Env) (c : Client) (resp : RFIDResp) :
  state c = RFIDCheckin ->
  Resp.OK resp = false ->
  (cmdAlarmOn ∉ deviceCmds (trace (onRFID env resp c)))
  /\ if String.eqb (stripLeading10 (Resp.Barcode resp)) (Barcode (Item (current c)))
     then
       sipCalls (trace (onRFID env resp c)) = []
       /\ items (after (onRFID env resp c))
          = <[stripLeading10 (Resp.Barcode resp) := withAction "CHECKIN" (current c)]>
              (items c)
       /\ deviceCmds (trace (onRFID env resp c)) = [cmdAlarmLeave]
       /\ state (after (onRFID env resp c)) = RFIDWaitForCheckinAlarmLeave
     else
       sipCalls (trace (onRFID env resp c))
         = [(sipFormMsgItemStatus (Resp.Barcode resp), itemStatusParse)]
       /\ match DoSIPCall env (sipFormMsgItemStatus (Resp.Barcode resp)) itemStatusParse with
          | (m, None) =>
              items (after (onRFID env resp c))
                = <[stripLeading10 (Resp.Barcode resp) := withAction "CHECKIN" m]> (items c)
              /\ deviceCmds (trace (onRFID env resp c)) = [cmdAlarmLeave]
              /\ state (after (onRFID env resp c)) = RFIDWaitForCheckinAlarmLeave
          | (_, Some e) =>
              uiMsgs (trace (onRFID env resp c)) = [connectSIPError e]
              /\ quitSignalled (trace (onRFID env resp c)) = true
              /\ items (after (onRFID env resp c)) = items c
              /\ deviceCmds (trace (onRFID env resp c)) = []
              /\ state (after (onRFID env resp c)) = RFIDCheckin
          end.
Proof.
  intros Hst Hok. act_unfold. rewrite Hst, Hok. simpl.
  destruct (String.eqb _ _); simpl.
  - destruct (rfidWrite env _); simpl;
      (split; [by intros ?%list_elem_of_singleton|]); repeat split; done.
  - destruct (DoSIPCall env _ _) as [m [e|]]; simpl.
    + split; [by intros ?%elem_of_nil|]. repeat split; done.
    + destruct (rfidWrite env _); simpl;
        (split; [by intros ?%list_elem_of_singleton|]); repeat split; done.
Qed.

Lemma scan_failure_releases_tag_witness :
  (cmdAlarmOn ∉ deviceCmds (trace (onRFID env_ok (respNOK "10B2" "") scanning)))
  /\ sipCalls (trace (onRFID env_ok (respNOK "10B2" "") scanning))
     = [(sipFormMsgItemStatus "10B2", itemStatusParse)]
  /\ items (after (onRFID env_ok (respNOK "10B2" "") scanning))
     = <["B2" := withAction "CHECKIN" (itemResult "A1" "A title")]> (items scanning)
  /\ deviceCmds (trace (onRFID env_ok (respNOK "10B2" "") scanning)) = [cmdAlarmLeave]
  /\ state (after (onRFID env_ok (respNOK "10B2" "") scanning))
     = RFIDWaitForCheckinAlarmLeave.
Proof.
  apply (scan_failure_releases_tag env_ok scanning (respNOK "10B2" "")); reflexivity.
Defined.

(** ** UI actions *)

(** C3, what the code does. The case CHECKIN of the switch on [msg.Action]
    does not look at the state: a CHECKIN for branch B2 handled while the
    station is scanning moves it to [RFIDCheckinWaitForBegOK] and writes the
    begin-scan command, so the state is not left unchanged and a device
    command is sent. *)
Lemma checkin_while_scanning_restarts_session :
  state scanning = RFIDCheckin
  /\ state (after (onKoha env_ok (uiCheckin "B2") scanning)) = RFIDCheckinWaitForBegOK
  /\ deviceCmds (trace (onKoha env_ok (uiCheckin "B2") scanning)) = [cmdBeginScan]
  /\ ~ (state (after (onKoha env_ok (uiCheckin "B2") scanning)) = state scanning
        /\ items (after (onKoha env_ok (uiCheckin "B2") scanning)) = items scanning
        /\ failedAlarmOn (after (onKoha env_ok (uiCheckin "B2") scanning))
           = failedAlarmOn scanning
        /\ failedAlarmOff (after (onKoha env_ok (uiCheckin "B2") scanning))
           = failedAlarmOff scanning
        /\ deviceCmds (trace (onKoha env_ok (uiCheckin "B2") scanning)) = []).
Proof.
  split; [reflexivity|]. split; [reflexivity|]. split; [reflexivity|].
  intros (H & _). vm_compute in H. discriminate H.
Qed.

(** C3, as amended. A CHECKIN is accepted in every state: the actor moves to
    [RFIDCheckinWaitForBegOK], takes the branch of the message, resets the
    codec and then writes the begin-scan command; the current message, the
    map of pending items and both retry maps are unchanged. *)
Theorem checkin_accepted_in_every_state (env : Env) (c : Client) (msg : Message) :
  Action msg = "CHECKIN" ->
  state (after (onKoha env msg c)) = RFIDCheckinWaitForBegOK
  /\ branch (after (onKoha env msg c)) = Branch msg
  /\ (exists t, trace (onKoha env msg c)
                = RFIDReset :: ToRFID {| Cmd := cmdBeginScan |} :: t)
  /\ deviceCmds (trace (onKoha env msg c)) = [cmdBeginScan]
  /\ current (after (onKoha env msg c)) = current c
  /\ items (after (onKoha env msg c)) = items c
  /\ failedAlarmOn (after (onKoha env msg c)) = failedAlarmOn c
  /\ failedAlarmOff (after (onKoha env msg c)) = failedAlarmOff c.
Proof.
  intros Hact. act_unfold. rewrite Hact. simpl.
  destruct (rfidWrite env _); simpl; repeat split; eauto.
Qed.

Lemma checkin_accepted_in_every_state_witness :
  state (after (onKoha env_ok (uiCheckin "B2") awaitingAlarmOn)) = RFIDCheckinWaitForBegOK
  /\ branch (after (onKoha env_ok (uiCheckin "B2") awaitingAlarmOn)) = "B2"
  /\ (exists t, trace (onKoha env_ok (uiCheckin "B2") awaitingAlarmOn)
                = RFIDReset :: ToRFID {| Cmd := cmdBeginScan |} :: t)
  /\ deviceCmds (trace (onKoha env_ok (uiCheckin "B2") awaitingAlarmOn)) = [cmdBeginScan]
  /\ current (after (onKoha env_ok (uiCheckin "B2") awaitingAlarmOn))
     = current awaitingAlarmOn
  /\ items (after (onKoha env_ok (uiCheckin "B2") awaitingAlarmOn)) = items awaitingAlarmOn
  /\ failedAlarmOn (after (onKoha env_ok (uiCheckin "B2") awaitingAlarmOn))
     = failedAlarmOn awaitingAlarmOn
  /\ failedAlarmOff (after (onKoha env_ok (uiCheckin "B2") awaitingAlarmOn))
     = failedAlarmOff awaitingAlarmOn.
Proof.
  apply (checkin_accepted_in_every_state env_ok awaitingAlarmOn (uiCheckin "B2")).
  reflexivity.
Defined.

(** C4, the code at an END while scanning, and in any other state: the case
    END sets the state to [RFIDWaitForEndOK] and does nothing else. The
    trace is empty, so no end-scan command (no command at all) is written
    to the device. *)
Theorem end_moves_without_device_command (env : Env) (c : Client) (m : Message) :
  state scanning = RFIDCheckin
  /\ state (after (onKoha env_ok (uiAction "END") scanning)) = RFIDWaitForEndOK
  /\ deviceCmds (trace (onKoha env_ok (uiAction "END") scanning)) = []
  /\ state (after (onKoha env (withAction "END" m) c)) = RFIDWaitForEndOK
  /\ trace (onKoha env (withAction "END" m) c) = []
  /\ (cmdEndScan ∉ deviceCmds (trace (onKoha env (withAction "END" m) c))).
Proof.
  split; [reflexivity|]. split; [reflexivity|]. split; [reflexivity|].
  split; [reflexivity|]. split; [reflexivity|].
  by intros ?%elem_of_nil.
Qed.

(** C1, the code at a successful answer to the alarm command. Station
    [awaitingAlarmOn] has sent alarm-on for item 10A1 and holds its tag
    under A1 in [failedAlarmOn]. The switch on [c.state] has no case for
    [RFIDWaitForCheckinAlarmOn] or [RFIDWaitForCheckinAlarmLeave], so the
    successful answer of the device changes nothing: A1 is still in
    [failedAlarmOn] and the state is still the alarm-wait state, not
    [RFIDCheckin]. The same holds for the answer to alarm-off. *)
Theorem alarm_success_response_keeps_retry_entry :
  state awaitingAlarmOn = RFIDWaitForCheckinAlarmOn
  /\ failedAlarmOn awaitingAlarmOn !! "A1" = Some "E004"
  /\ failedAlarmOn (after (onRFID env_ok (respOK "10A1" "E004") awaitingAlarmOn)) !! "A1"
     = Some "E004"
  /\ state (after (onRFID env_ok (respOK "10A1" "E004") awaitingAlarmOn))
     = RFIDWaitForCheckinAlarmOn
  /\ state awaitingAlarmLeave = RFIDWaitForCheckinAlarmLeave
  /\ state (after (onRFID env_ok (respOK "10X9" "E005") awaitingAlarmLeave))
     = RFIDWaitForCheckinAlarmLeave.
Proof. repeat split; reflexivity. Qed.

(** C2, the code at a retry request for a barcode that has an entry.
    Station [awaitingAlarmOn] holds tag E004 under A1 in [failedAlarmOn].
    The cases RETRY-ALARM-ON and RETRY-ALARM-OFF of the switch on
    [msg.Action] are empty: whatever the message carries and whatever the
    retry maps hold, the client is unchanged and the trace is empty, so no
    alarm command is written again and the state does not move. *)
Theorem retry_with_entry_sends_nothing (env : Env) (c : Client) (m : Message) :
  failedAlarmOn awaitingAlarmOn !! "A1" = Some "E004"
  /\ onKoha env_ok (uiItemAction "RETRY-ALARM-ON" "A1") awaitingAlarmOn
     = (tt, awaitingAlarmOn, [])
  /\ onKoha env (withAction "RETRY-ALARM-ON" m) c = (tt, c, [])
  /\ onKoha env (withAction "RETRY-ALARM-OFF" m) c = (tt, c, []).
Proof. repeat split; reflexivity. Qed.

(** ** Backend calls *)


(** A barcode either starts with "10" and is "10" followed by its
    normalised form, or does not and is its own normalised form. *)
Lemma stripLeading10_cases (b : string) :
  (HasPrefix b "10" = true /\ b = "10" +:+ stripLeading10 b)
  \/ (HasPrefix b "10" = false /\ stripLeading10 b = b).
Proof.
  destruct (HasPrefix b "10") eqn:Hp; [left|right]; (split; [done|]).
  - apply HasPrefix_10 in Hp as [r ->].
    unfold stripLeading10. by rewrite (TrimPrefix_app "10").
  - by apply TrimPrefix_no_prefix.
Qed.

(** * Further properties of the actor and of its goroutines *)

Set Warnings "-clear-no-such-hyp".

(** ** The loop of [Run], one input after the other *)

Lemma step_continues (env : Env) (i : Input) (c : Client) :
  fst (fst (step env i c)) = negb (isQuit i).
Proof.
  destruct i as [msg|resp|]; cbv [step mbind mret Act_bind Act_ret]; simpl;
    [destruct (onKoha env msg c) as [[[] c1] t1]
    |destruct (onRFID env resp c) as [[[] c1] t1]|]; reflexivity.
Qed.

Lemma run_nil (env : Env) (c : Client) : run env [] c = (tt, c, []).
Proof. reflexivity. Qed.

Lemma run_quit (env : Env) (rest : list Input) (c : Client) :
  run env (Quit :: rest) c = (tt, c, [CloseUI]).
Proof. reflexivity. Qed.

Lemma run_cons_eq (env : Env) (i : Input) (rest : list Input) (c : Client) :
  run env (i :: rest) c
  = let '(b, c1, t1) := step env i c in
    let '(u, c2, t2) := (if b : bool then run env rest else mret tt) c1 in
    (u, c2, (t1 ++ t2)%list).
Proof. reflexivity. Qed.

Lemma run_cons (env : Env) (i : Input) (rest : list Input) (c : Client) :
  isQuit i = false ->
  after (run env (i :: rest) c) = after (run env rest (after (step env i c)))
  /\ trace (run env (i :: rest) c)
     = (trace (step env i c) ++ trace (run env rest (after (step env i c))))%list.
Proof.
  intros Hq. pose proof (step_continues env i c) as Hc. rewrite Hq in Hc.
  rewrite run_cons_eq.
  destruct (step env i c) as [[b c1] t1]. simpl in Hc. subst b.
  unfold after, trace. simpl.
  destruct (run env rest c1) as [[[] c2] t2]. done.
Qed.

(** The trace of one turn on a quit is the close message, and the client is
    as before. *)
Lemma step_quit (env : Env) (c : Client) : step env Quit c = (false, c, [CloseUI]).
Proof. reflexivity. Qed.

(** A property of the client that every turn keeps is kept by the loop. *)
Lemma run_invariant (env : Env) (P : Client -> Prop) :
  (forall i c, P c -> P (after (step env i c))) ->
  forall inputs c, P c -> P (after (run env inputs c)).
Proof.
  intros Hstep inputs. induction inputs as [|i rest IH]; intros c Hc; [done|].
  destruct (isQuit i) eqn:Hq.
  - destruct i; try discriminate. by rewrite run_quit.
  - destruct (run_cons env i rest c Hq) as [-> _]. by apply IH, Hstep.
Qed.

Lemma deviceCmds_app (t1 t2 : list Event) :
  deviceCmds (t1 ++ t2)%list = (deviceCmds t1 ++ deviceCmds t2)%list.
Proof. apply omap_app. Qed.

Lemma uiMsgs_app (t1 t2 : list Event) :
  uiMsgs (t1 ++ t2)%list = (uiMsgs t1 ++ uiMsgs t2)%list.
Proof. apply omap_app. Qed.

Lemma sipCalls_app (t1 t2 : list Event) :
  sipCalls (t1 ++ t2)%list = (sipCalls t1 ++ sipCalls t2)%list.
Proof. apply omap_app. Qed.

Lemma quitSignalled_app (t1 t2 : list Event) :
  quitSignalled (t1 ++ t2)%list = quitSignalled t1 || quitSignalled t2.
Proof. apply existsb_app. Qed.

(** What one turn leaves alone and what it only extends. *)
Lemma step_frame (env : Env) (i : Input) (c : Client) :
  failedAlarmOff (after (step env i c)) = failedAlarmOff c
  /\ IP (after (step env i c)) = IP c
  /\ dom (items c) ⊆ dom (items (after (step env i c)))
  /\ dom (failedAlarmOn c) ⊆ dom (failedAlarmOn (after (step env i c))).
Proof.
  step_cases env i c; repeat split; try done; rewrite ?dom_insert_L; set_solver.
Qed.

(** X1. No run of the actor writes [failedAlarmOff] or [IP]: whatever the
    inputs and the answers of the world, both are as at the start. *)
Theorem run_never_writes_failedAlarmOff (env : Env) (inputs : list Input) (c : Client) :
  failedAlarmOff (after (run env inputs c)) = failedAlarmOff c
  /\ IP (after (run env inputs c)) = IP c.
Proof.
  apply (run_invariant env
           (fun c' => failedAlarmOff c' = failedAlarmOff c /\ IP c' = IP c)); [|done].
  intros i c' [H1 H2]. destruct (step_frame env i c') as (-> & -> & _). done.
Qed.

(** X2. No run of the actor deletes an entry: a barcode that has a pending
    item or an alarm-on retry entry at the start still has one at the end
    (its value may have been replaced by a later scan). *)
Theorem run_never_deletes_entries (env : Env) (inputs : list Input) (c : Client) :
  dom (items c) ⊆ dom (items (after (run env inputs c)))
  /\ dom (failedAlarmOn c) ⊆ dom (failedAlarmOn (after (run env inputs c))).
Proof.
  apply (run_invariant env
           (fun c' => dom (items c) ⊆ dom (items c')
                      /\ dom (failedAlarmOn c) ⊆ dom (failedAlarmOn c'))); [|done].
  intros i c' [H1 H2]. destruct (step_frame env i c') as (_ & _ & H3 & H4).
  split; set_solver.
Qed.

Lemma step_retry_has_item (env : Env) (i : Input) (c : Client) :
  dom (failedAlarmOn c) ⊆ dom (items c) ->
  dom (failedAlarmOn (after (step env i c))) ⊆ dom (items (after (step env i c))).
Proof.
  intros Hdom. step_cases env i c; try done; rewrite ?dom_insert_L;
    revert Hdom; clear; set_solver.
Qed.

(** X3. Every barcode with an alarm-on retry entry also has its pending
    item: when this holds at the start of a run it holds at the end. *)
Theorem run_keeps_retry_entries_backed_by_items
    (env : Env) (inputs : list Input) (c : Client) :
  dom (failedAlarmOn c) ⊆ dom (items c) ->
  dom (failedAlarmOn (after (run env inputs c))) ⊆ dom (items (after (run env inputs c))).
Proof.
  intros H.
  apply (run_invariant env (fun c' => dom (failedAlarmOn c') ⊆ dom (items c')));
    [|done].
  intros i c'. apply step_retry_has_item.
Qed.

Lemma run_keeps_retry_entries_backed_by_items_witness :
  dom (failedAlarmOn (after (run env_ok
         [FromKoha (uiCheckin "B1"); FromRFID (respOK "" "");
          FromRFID (respOK "10A1" "E004")] (newClient "10.0.0.7"))))
  ⊆ dom (items (after (run env_ok
         [FromKoha (uiCheckin "B1"); FromRFID (respOK "" "");
          FromRFID (respOK "10A1" "E004")] (newClient "10.0.0.7")))).
Proof.
  apply (run_keeps_retry_entries_backed_by_items env_ok
           [FromKoha (uiCheckin "B1"); FromRFID (respOK "" "");
            FromRFID (respOK "10A1" "E004")] (newClient "10.0.0.7")).
  vm_compute. set_solver.
Defined.

(** ** What one run can do to the outside *)

Lemma step_effect_bounds (env : Env) (i : Input) (c : Client) :
  length (deviceCmds (trace (step env i c))) <= 1
  /\ length (sipCalls (trace (step env i c))) <= 1.
Proof. step_cases env i c; simpl; lia. Qed.

Lemma run_trace_bound (env : Env) (f : list Event -> nat) :
  f [] = 0 -> f [CloseUI] = 0 ->
  (forall t1 t2, f (t1 ++ t2)%list = f t1 + f t2) ->
  (forall i c, f (trace (step env i c)) <= 1) ->
  forall inputs c, f (trace (run env inputs c)) <= length inputs.
Proof.
  intros Hnil Hclose Happ Hstep inputs.
  induction inputs as [|i rest IH]; intros c.
  - rewrite run_nil. unfold trace. simpl. lia.
  - destruct (isQuit i) eqn:Hq.
    + destruct i; try discriminate. rewrite run_quit. unfold trace. simpl.
      rewrite Hclose. lia.
    + destruct (run_cons env i rest c Hq) as [_ ->]. rewrite Happ.
      specialize (Hstep i c). specialize (IH (after (step env i c))).
      simpl. lia.
Qed.

(** In the loop, at most one device command and at most one backend call
    for each input handled. *)
Lemma loop_one_command_per_input (env : Env) (inputs : list Input) (c : Client) :
  length (deviceCmds (trace (run env inputs c))) <= length inputs
  /\ length (sipCalls (trace (run env inputs c))) <= length inputs.
Proof.
  split.
  - apply (run_trace_bound env (fun t => length (deviceCmds t))); try done.
    + intros t1 t2. by rewrite deviceCmds_app, length_app.
    + intros i c'. apply step_effect_bounds.
  - apply (run_trace_bound env (fun t => length (sipCalls t))); try done.
    + intros t1 t2. by rewrite sipCalls_app, length_app.
    + intros i c'. apply step_effect_bounds.
Qed.

Lemma step_quit_iff_connect (env : Env) (i : Input) (c : Client) :
  quitSignalled (trace (step env i c))
  = existsb (fun m => String.eqb (Action m) "CONNECT") (uiMsgs (trace (step env i c)))
  /\ forallb (fun m => negb (String.eqb (Action m) "CONNECT") || isConnectError m)
       (uiMsgs (trace (step env i c))) = true
  /\ length (uiMsgs (trace (step env i c))) <= 1.
Proof. step_cases env i c; simpl; repeat split; try done; lia. Qed.

(** A property of traces that every turn has and that concatenation keeps
    holds of the trace of a run. *)
Lemma run_trace_closed (env : Env) (P : list Event -> Prop) :
  P [] ->
  (forall t1 t2, P t1 -> P t2 -> P (t1 ++ t2)%list) ->
  (forall i c, P (trace (step env i c))) ->
  forall inputs c, P (trace (run env inputs c)).
Proof.
  intros Hnil Happ Hstep inputs. induction inputs as [|i rest IH]; intros c.
  - by rewrite run_nil.
  - destruct (isQuit i) eqn:Hq.
    + destruct i; try discriminate. rewrite run_quit.
      apply (Hstep Quit c).
    + destruct (run_cons env i rest c Hq) as [_ ->]. by apply Happ.
Qed.

(** In the loop, quit is signalled exactly when a CONNECT message is sent,
    and every CONNECT message of the loop carries an error flag. *)
Lemma loop_quit_iff_connect_error (env : Env) (inputs : list Input) (c : Client) :
  quitSignalled (trace (run env inputs c))
  = existsb (fun m => String.eqb (Action m) "CONNECT") (uiMsgs (trace (run env inputs c)))
  /\ forallb (fun m => negb (String.eqb (Action m) "CONNECT") || isConnectError m)
       (uiMsgs (trace (run env inputs c))) = true.
Proof.
  apply (run_trace_closed env
    (fun t => quitSignalled t
              = existsb (fun m => String.eqb (Action m) "CONNECT") (uiMsgs t)
              /\ forallb (fun m => negb (String.eqb (Action m) "CONNECT")
                                   || isConnectError m) (uiMsgs t) = true)).
  - done.
  - intros t1 t2 [H1 H1'] [H2 H2'].
    rewrite quitSignalled_app, uiMsgs_app, existsb_app, forallb_app, H1, H2, H1', H2'.
    done.
  - intros i c'. destruct (step_quit_iff_connect env i c') as (H1 & H2 & _). done.
Qed.

Lemma run_app (env : Env) (l1 l2 : list Input) (c : Client) :
  forallb (fun i => negb (isQuit i)) l1 = true ->
  after (run env (l1 ++ l2) c) = after (run env l2 (after (run env l1 c)))
  /\ trace (run env (l1 ++ l2) c)
     = (trace (run env l1 c) ++ trace (run env l2 (after (run env l1 c))))%list.
Proof.
  revert c. induction l1 as [|i l1 IH]; intros c Hq; [done|].
  simpl in Hq. apply andb_true_iff in Hq as [Hi Hq].
  apply negb_true_iff in Hi.
  change ((i :: l1) ++ l2)%list with (i :: (l1 ++ l2))%list.
  destruct (run_cons env i (l1 ++ l2) c Hi) as [-> ->].
  destruct (run_cons env i l1 c Hi) as [-> ->].
  destruct (IH (after (step env i c)) Hq) as [-> ->].
  by rewrite <- app_assoc.
Qed.

(** X6. The loop of [Run] ends at the first quit it receives: the inputs
    that follow are never handled, the client is the one reached by the
    inputs before the quit, and the last effect is the close message to the
    UI. *)
Theorem run_stops_at_quit (env : Env) (pre rest : list Input) (c : Client) :
  forallb (fun i => negb (isQuit i)) pre = true ->
  after (run env (pre ++ Quit :: rest) c) = after (run env pre c)
  /\ trace (run env (pre ++ Quit :: rest) c)
     = (trace (run env pre c) ++ [CloseUI])%list.
Proof.
  intros Hq. destruct (run_app env pre (Quit :: rest) c Hq) as [-> ->].
  by rewrite run_quit.
Qed.

Lemma run_stops_at_quit_witness :
  after (run env_ok ([FromKoha (uiCheckin "B1"); FromRFID (respOK "" "")]
                       ++ Quit :: [FromRFID (respOK "10A1" "E004")])
           (newClient "10.0.0.7"))
  = after (run env_ok [FromKoha (uiCheckin "B1"); FromRFID (respOK "" "")]
             (newClient "10.0.0.7"))
  /\ trace (run env_ok ([FromKoha (uiCheckin "B1"); FromRFID (respOK "" "")]
                          ++ Quit :: [FromRFID (respOK "10A1" "E004")])
              (newClient "10.0.0.7"))
     = (trace (run env_ok [FromKoha (uiCheckin "B1"); FromRFID (respOK "" "")]
                 (newClient "10.0.0.7")) ++ [CloseUI])%list.
Proof.
  apply (run_stops_at_quit env_ok
           [FromKoha (uiCheckin "B1"); FromRFID (respOK "" "")]
           [FromRFID (respOK "10A1" "E004")] (newClient "10.0.0.7")).
  reflexivity.
Defined.

(** X7. Device responses alone never take the actor out of a state that is
    neither [RFIDCheckinWaitForBegOK] nor [RFIDCheckin]: from an alarm-wait
    state or from [RFIDWaitForEndOK], any number of responses, successful or
    not, leaves the client as it is and produces no effect. *)
Theorem device_responses_never_leave_wait_state
    (env : Env) (resps : list RFIDResp) (c : Client) :
  state c <> RFIDCheckinWaitForBegOK ->
  state c <> RFIDCheckin ->
  run env (FromRFID <$> resps) c = (tt, c, []).
Proof.
  intros H1 H2. induction resps as [|resp resps IH]; [done|].
  rewrite fmap_cons, run_cons_eq.
  cbv [step mbind mret Act_bind Act_ret].
  rewrite (onRFID_no_case env c resp H1 H2). simpl.
  fold (run env (FromRFID <$> resps)). by rewrite IH.
Qed.

Lemma device_responses_never_leave_wait_state_witness :
  run env_ok (FromRFID <$> [respOK "10A1" "E004"; respNOK "10B2" ""; respOK "10C3" "E006"])
    awaitingAlarmOn
  = (tt, awaitingAlarmOn, []).
Proof.
  apply (device_responses_never_leave_wait_state env_ok
           [respOK "10A1" "E004"; respNOK "10B2" ""; respOK "10C3" "E006"]
           awaitingAlarmOn); vm_compute; discriminate.
Defined.

(** X8. A UI message whose action is neither CHECKIN nor END does nothing:
    the five empty cases of the switch and any action the switch does not
    name leave the client unchanged, send nothing to the device or the UI,
    and the loop goes on. *)
Theorem other_ui_actions_are_ignored (env : Env) (c : Client) (msg : Message) :
  Action msg <> "CHECKIN" ->
  Action msg <> "END" ->
  step env (FromKoha msg) c = (true, c, []).
Proof.
  intros H1 H2. cbv [step mbind mret Act_bind Act_ret].
  by rewrite (onKoha_stub env c msg H1 H2).
Qed.

Lemma other_ui_actions_are_ignored_witness :
  step env_ok (FromKoha (uiItemAction "CHECKOUT" "A1")) scanning = (true, scanning, []).
Proof.
  apply (other_ui_actions_are_ignored env_ok scanning (uiItemAction "CHECKOUT" "A1"));
    vm_compute; discriminate.
Defined.

(** ** Failures of the device write *)

(** X9. The result of the write on the device connection never changes what
    a turn does to the client, nor which command it writes or which backend
    call it makes: the transition is taken whether the write succeeds or
    fails. *)
Theorem device_write_result_does_not_change_client
    (env : Env) (w : RFIDReq -> option string) (i : Input) (c : Client) :
  after (step (withWrites env w) i c) = after (step env i c)
  /\ deviceCmds (trace (step (withWrites env w) i c)) = deviceCmds (trace (step env i c))
  /\ sipCalls (trace (step (withWrites env w) i c)) = sipCalls (trace (step env i c)).
Proof.
  unfold withWrites. step_cases env i c; simpl; world_cases env;
    repeat match goal with |- context [w ?r] => destruct (w r); simpl end;
    done.
Qed.

(** X10. When the write of a device command fails during a turn, the UI is
    sent the CONNECT message with the device-error flag and the text of the
    write error, and quit is signalled; when it succeeds, a turn that wrote
    a command sends nothing to the UI and signals no quit. *)
Theorem device_write_failure_is_reported
    (env : Env) (i : Input) (c : Client) (cmd : RFIDCmd) :
  cmd ∈ deviceCmds (trace (step env i c)) ->
  match rfidWrite env {| Cmd := cmd |} with
  | Some e =>
      uiMsgs (trace (step env i c)) = [connectRFIDError e]
      /\ quitSignalled (trace (step env i c)) = true
  | None =>
      uiMsgs (trace (step env i c)) = []
      /\ quitSignalled (trace (step env i c)) = false
  end.
Proof.
  destruct i as [msg|resp|].
  - koha_cases msg; act_unfold; simpl; try (by intros ?%elem_of_nil).
    destruct (rfidWrite env {| Cmd := cmdBeginScan |}) eqn:Hw; simpl;
      intros ->%list_elem_of_singleton; by rewrite Hw.
  - act_unfold. destruct (state c); simpl; try (by intros ?%elem_of_nil).
    + destruct (Resp.OK resp); simpl; by intros ?%elem_of_nil.
    + destruct (Resp.OK resp); simpl.
      * destruct (DoSIPCall env _ _) as [m [e|]]; simpl;
          [by intros ?%elem_of_nil|].
        destruct (Unknown (Item m) || TransactionFailed (Item m)); simpl.
        -- destruct (rfidWrite env {| Cmd := cmdAlarmLeave |}) eqn:Hw; simpl;
             intros ->%list_elem_of_singleton; by rewrite Hw.
        -- destruct (rfidWrite env {| Cmd := cmdAlarmOn |}) eqn:Hw; simpl;
             intros ->%list_elem_of_singleton; by rewrite Hw.
      * destruct (String.eqb _ _); simpl.
        -- destruct (rfidWrite env {| Cmd := cmdAlarmLeave |}) eqn:Hw; simpl;
             intros ->%list_elem_of_singleton; by rewrite Hw.
        -- destruct (DoSIPCall env _ _) as [m [e|]]; simpl;
             [by intros ?%elem_of_nil|].
           destruct (rfidWrite env {| Cmd := cmdAlarmLeave |}) eqn:Hw; simpl;
             intros ->%list_elem_of_singleton; by rewrite Hw.
  - act_unfold. simpl. by intros ?%elem_of_nil.
Qed.

Lemma device_write_failure_is_reported_witness :
  uiMsgs (trace (step env_link_down (FromKoha (uiCheckin "B1")) (newClient "10.0.0.7")))
    = [connectRFIDError "write: broken pipe"]
  /\ quitSignalled
       (trace (step env_link_down (FromKoha (uiCheckin "B1")) (newClient "10.0.0.7")))
     = true.
Proof.
  apply (device_write_failure_is_reported env_link_down (FromKoha (uiCheckin "B1"))
           (newClient "10.0.0.7") cmdBeginScan).
  vm_compute. apply list_elem_of_here.
Defined.

(** ** The answer to begin-scan *)

(** X11. In [RFIDCheckinWaitForBegOK], a successful response moves the actor
    to [RFIDCheckin] without any effect; a failed one sends the UI a CONNECT
    message with the device-error flag and no text, signals quit and leaves
    the state where it was. In both cases nothing is written to the device
    and the branch, the current message and the maps are unchanged. *)
Theorem begin_scan_answer (env : Env) (c : Client) (resp : RFIDResp) :
  state c = RFIDCheckinWaitForBegOK ->
  trace (onRFID env resp c)
    = (if Resp.OK resp then [] else [ToKoha (connectRFIDError ""); QuitSignal])
  /\ state (after (onRFID env resp c))
     = (if Resp.OK resp then RFIDCheckin else RFIDCheckinWaitForBegOK)
  /\ branch (after (onRFID env resp c)) = branch c
  /\ current (after (onRFID env resp c)) = current c
  /\ items (after (onRFID env resp c)) = items c
  /\ failedAlarmOn (after (onRFID env resp c)) = failedAlarmOn c.
Proof.
  intros Hst. act_unfold. rewrite Hst. simpl.
  destruct (Resp.OK resp); simpl; repeat split; done.
Qed.

Lemma begin_scan_answer_witness :
  trace (onRFID env_ok (respNOK "" "")
           (after (onKoha env_ok (uiCheckin "B1") (newClient "10.0.0.7"))))
    = [ToKoha (connectRFIDError ""); QuitSignal]
  /\ state (after (onRFID env_ok (respNOK "" "")
                     (after (onKoha env_ok (uiCheckin "B1") (newClient "10.0.0.7")))))
     = RFIDCheckinWaitForBegOK
  /\ branch (after (onRFID env_ok (respNOK "" "")
                      (after (onKoha env_ok (uiCheckin "B1") (newClient "10.0.0.7")))))
     = "B1"
  /\ current (after (onRFID env_ok (respNOK "" "")
                       (after (onKoha env_ok (uiCheckin "B1") (newClient "10.0.0.7")))))
     = zeroMessage
  /\ items (after (onRFID env_ok (respNOK "" "")
                     (after (onKoha env_ok (uiCheckin "B1") (newClient "10.0.0.7")))))
     = ∅
  /\ failedAlarmOn (after (onRFID env_ok (respNOK "" "")
                     (after (onKoha env_ok (uiCheckin "B1") (newClient "10.0.0.7")))))
     = ∅.
Proof.
  apply (begin_scan_answer env_ok
           (after (onKoha env_ok (uiCheckin "B1") (newClient "10.0.0.7")))
           (respNOK "" "")).
  reflexivity.
Defined.

(** ** What a scan records *)

(** X12. While scanning, after a successful scan whose checkin call
    succeeds, [c.current] is the message the backend returned, and that
    message is kept in [items] under the normalised barcode exactly when the
    item is known and its transaction did not fail; an unknown or failed
    item leaves [items] as it was. The branch is unchanged. *)
Theorem checkin_success_records_item
    (env : Env) (c : Client) (resp : RFIDResp) (m : Message) :
  state c = RFIDCheckin ->
  Resp.OK resp = true ->
  DoSIPCall env (sipFormMsgCheckin (branch c) (Resp.Barcode resp)) checkinParse
    = (m, None) ->
  current (after (onRFID env resp c)) = m
  /\ items (after (onRFID env resp c))
     = (if Unknown (Item m) || TransactionFailed (Item m) then items c
        else <[stripLeading10 (Resp.Barcode resp) := m]> (items c))
  /\ branch (after (onRFID env resp c)) = branch c.
Proof.
  intros Hst Hok Hsip. act_unfold.
  rewrite Hst, Hok. simpl. rewrite Hsip. simpl.
  destruct (Unknown (Item m) || TransactionFailed (Item m)); simpl;
    destruct (rfidWrite env _); simpl; repeat split; done.
Qed.

Lemma checkin_success_records_item_witness :
  current (after (onRFID env_unknown (respOK "10X9" "E005") scanning))
    = fst (DoSIPCall env_unknown (sipFormMsgCheckin "B1" "10X9") checkinParse)
  /\ items (after (onRFID env_unknown (respOK "10X9" "E005") scanning)) = items scanning
  /\ branch (after (onRFID env_unknown (respOK "10X9" "E005") scanning)) = branch scanning.
Proof.
  apply (checkin_success_records_item env_unknown scanning (respOK "10X9" "E005")
           (fst (DoSIPCall env_unknown (sipFormMsgCheckin "B1" "10X9") checkinParse)));
    reflexivity.
Defined.

(** X13. While scanning, a backend call that fails still replaces
    [c.current] by the message the call returned, for the checkin call as
    for the item-status call: the item handled before is forgotten. The
    state stays [RFIDCheckin], nothing is written to the device and the maps
    are unchanged. *)
Theorem failed_backend_call_replaces_current
    (env : Env) (c : Client) (resp : RFIDResp)
    (req : SIPRequest) (p : SIPParser) (e : string) :
  state c = RFIDCheckin ->
  sipCalls (trace (onRFID env resp c)) = [(req, p)] ->
  snd (DoSIPCall env req p) = Some e ->
  current (after (onRFID env resp c)) = fst (DoSIPCall env req p)
  /\ state (after (onRFID env resp c)) = RFIDCheckin
  /\ deviceCmds (trace (onRFID env resp c)) = []
  /\ items (after (onRFID env resp c)) = items c
  /\ failedAlarmOn (after (onRFID env resp c)) = failedAlarmOn c.
Proof.
  intros Hst. act_unfold. rewrite Hst. simpl.
  destruct (Resp.OK resp); simpl.
  - destruct (DoSIPCall env (sipFormMsgCheckin _ _) checkinParse) as [m [e'|]] eqn:Hc;
      simpl.
    + intros [= <- <-] He. rewrite Hc. simpl. repeat split; done.
    + destruct (Unknown (Item m) || TransactionFailed (Item m)); simpl;
        destruct (rfidWrite env _); simpl;
        intros [= <- <-] He; rewrite Hc in He; discriminate.
  - destruct (String.eqb _ _); simpl.
    + destruct (rfidWrite env _); simpl; intros; discriminate.
    + destruct (DoSIPCall env (sipFormMsgItemStatus _) itemStatusParse)
        as [m [e'|]] eqn:Hc; simpl.
      * intros [= <- <-] He. rewrite Hc. simpl. repeat split; done.
      * destruct (rfidWrite env _); simpl;
          intros [= <- <-] He; rewrite Hc in He; discriminate.
Qed.

Lemma failed_backend_call_replaces_current_witness :
  current (after (onRFID env_sip_down (respOK "10C3" "E006") awaitingScanC3)) = zeroMessage
  /\ state (after (onRFID env_sip_down (respOK "10C3" "E006") awaitingScanC3)) = RFIDCheckin
  /\ deviceCmds (trace (onRFID env_sip_down (respOK "10C3" "E006") awaitingScanC3)) = []
  /\ items (after (onRFID env_sip_down (respOK "10C3" "E006") awaitingScanC3))
     = items awaitingScanC3
  /\ failedAlarmOn (after (onRFID env_sip_down (respOK "10C3" "E006") awaitingScanC3))
     = failedAlarmOn awaitingScanC3.
Proof.
  apply (failed_backend_call_replaces_current env_sip_down awaitingScanC3
           (respOK "10C3" "E006") (sipFormMsgCheckin "B1" "10C3") checkinParse
           "sip: connection refused"); reflexivity.
Defined.

(** ** When the actor scans and when it arms a tag *)

(** X14. A turn ends in [RFIDCheckin] only if the actor was there already,
    or if it was waiting in [RFIDCheckinWaitForBegOK] and the input is a
    successful device response: no UI message and no failed response starts
    the scanning. *)
Theorem scanning_starts_only_on_device_ok (env : Env) (i : Input) (c : Client) :
  state (after (step env i c)) = RFIDCheckin ->
  state c = RFIDCheckin
  \/ (state c = RFIDCheckinWaitForBegOK
      /\ exists resp, i = FromRFID resp /\ Resp.OK resp = true).
Proof.
  destruct i as [msg|resp|].
  - koha_cases msg; act_unfold; simpl; world_cases env;
      intros H; first [discriminate H | by left].
  - act_unfold. destruct (state c) eqn:Hst; simpl;
      try (intros H; congruence); auto.
    destruct (Resp.OK resp) eqn:Hok; simpl; [|intros H; congruence].
    intros _. right. split; [done|]. by exists resp.
  - act_unfold. simpl. auto.
Qed.

Lemma scanning_starts_only_on_device_ok_witness :
  state (after (onKoha env_ok (uiCheckin "B1") (newClient "10.0.0.7"))) = RFIDCheckin
  \/ (state (after (onKoha env_ok (uiCheckin "B1") (newClient "10.0.0.7")))
      = RFIDCheckinWaitForBegOK
      /\ exists resp, FromRFID (respOK "" "") = FromRFID resp /\ Resp.OK resp = true).
Proof.
  apply (scanning_starts_only_on_device_ok env_ok (FromRFID (respOK "" ""))
           (after (onKoha env_ok (uiCheckin "B1") (newClient "10.0.0.7")))).
  reflexivity.
Defined.

(** X15. The alarm-on command is written only for a validated checkin: the
    turn handles a successful device response while scanning, the backend
    checkin call for it returned no error, and the item returned is neither
    unknown nor failed; in that turn the tag id of the response is stored
    under the normalised barcode in [failedAlarmOn]. *)
Theorem alarm_on_only_after_valid_checkin (env : Env) (i : Input) (c : Client) :
  cmdAlarmOn ∈ deviceCmds (trace (step env i c)) ->
  exists resp,
    i = FromRFID resp
    /\ state c = RFIDCheckin
    /\ Resp.OK resp = true
    /\ snd (DoSIPCall env (sipFormMsgCheckin (branch c) (Resp.Barcode resp)) checkinParse)
       = None
    /\ Unknown (Item (fst (DoSIPCall env
         (sipFormMsgCheckin (branch c) (Resp.Barcode resp)) checkinParse))) = false
    /\ TransactionFailed (Item (fst (DoSIPCall env
         (sipFormMsgCheckin (branch c) (Resp.Barcode resp)) checkinParse))) = false
    /\ failedAlarmOn (after (step env i c)) !! stripLeading10 (Resp.Barcode resp)
       = Some (Resp.Tag resp).
Proof.
  destruct i as [msg|resp|].
  - koha_cases msg; act_unfold; simpl; world_cases env;
      intros H; repeat (apply elem_of_cons in H as [H|H]; try discriminate H);
      by apply elem_of_nil in H.
  - act_unfold. destruct (state c) eqn:Hst; simpl;
      try (by intros ?%elem_of_nil).
    + destruct (Resp.OK resp); simpl; by intros ?%elem_of_nil.
    + destruct (Resp.OK resp) eqn:Hok; simpl.
      * destruct (DoSIPCall env _ _) as [m [e|]] eqn:Hc; simpl;
          [by intros ?%elem_of_nil|].
        destruct (Unknown (Item m)) eqn:Hu, (TransactionFailed (Item m)) eqn:Hf;
          simpl; destruct (rfidWrite env _); simpl;
          intros H; repeat (apply elem_of_cons in H as [H|H]; try discriminate H);
          try (by apply elem_of_nil in H);
          (exists resp; rewrite Hc; simpl; repeat split; try done;
           apply lookup_insert_eq).
      * destruct (String.eqb _ _); simpl;
          [|destruct (DoSIPCall env _ _) as [m [e|]]; simpl];
          try destruct (rfidWrite env _); simpl;
          intros H; repeat (apply elem_of_cons in H as [H|H]; try discriminate H);
          by apply elem_of_nil in H.
  - act_unfold. simpl. by intros ?%elem_of_nil.
Qed.

Lemma alarm_on_only_after_valid_checkin_witness :
  exists resp,
    FromRFID (respOK "10A1" "E004") = FromRFID resp
    /\ state scanning = RFIDCheckin
    /\ Resp.OK resp = true
    /\ snd (DoSIPCall env_ok (sipFormMsgCheckin (branch scanning) (Resp.Barcode resp))
              checkinParse) = None
    /\ Unknown (Item (fst (DoSIPCall env_ok
         (sipFormMsgCheckin (branch scanning) (Resp.Barcode resp)) checkinParse))) = false
    /\ TransactionFailed (Item (fst (DoSIPCall env_ok
         (sipFormMsgCheckin (branch scanning) (Resp.Barcode resp)) checkinParse))) = false
    /\ failedAlarmOn (after (step env_ok (FromRFID (respOK "10A1" "E004")) scanning))
         !! stripLeading10 (Resp.Barcode resp)
       = Some (Resp.Tag resp).
Proof.
  apply (alarm_on_only_after_valid_checkin env_ok (FromRFID (respOK "10A1" "E004"))
           scanning).
  vm_compute. apply list_elem_of_here.
Defined.

(** ** More on the normalisation of barcodes *)

(** X16. Among barcodes that all carry the prefix "10", and among barcodes
    that all lack it, normalisation loses nothing: two of them with the same
    normalised form are equal, so they never share a key of the maps. *)
Theorem stripLeading10_injective_on_same_kind (a b : string) :
  HasPrefix a "10" = HasPrefix b "10" ->
  stripLeading10 a = stripLeading10 b ->
  a = b.
Proof.
  intros Hk Heq.
  destruct (stripLeading10_cases a) as [Ha|Ha];
    destruct (stripLeading10_cases b) as [Hb|Hb].
  - destruct Ha as [_ ->], Hb as [_ ->]. by rewrite Heq.
  - destruct Ha as [Ha _], Hb as [Hb _]. congruence.
  - destruct Ha as [Ha _], Hb as [Hb _]. congruence.
  - destruct Ha as [_ Ha], Hb as [_ Hb]. congruence.
Qed.

Lemma stripLeading10_injective_on_same_kind_witness :
  "10A1" = "10" +:+ "A1".
Proof.
  apply (stripLeading10_injective_on_same_kind "10A1" ("10" +:+ "A1")); reflexivity.
Defined.

(** X17. A barcode that carries the prefix and the same barcode without it
    have the same normalised form, whenever the part after the prefix does
    not itself start with "10": both are handled under one key. *)
Theorem stripLeading10_merges_prefixed_and_plain (s : string) :
  HasPrefix s "10" = false ->
  stripLeading10 ("10" +:+ s) = stripLeading10 s
  /\ "10" +:+ s <> s.
Proof.
  intros Hp. split.
  - unfold stripLeading10. rewrite (TrimPrefix_app "10").
    by rewrite (TrimPrefix_no_prefix s "10" Hp).
  - intros Heq. pose proof (HasPrefix_app "10" s) as H. rewrite Heq in H. congruence.
Qed.

Lemma stripLeading10_merges_prefixed_and_plain_witness :
  stripLeading10 ("10" +:+ "A1") = stripLeading10 "A1" /\ "10" +:+ "A1" <> "A1".
Proof.
  apply (stripLeading10_merges_prefixed_and_plain "A1"). reflexivity.
Defined.

(** ** The device handshake of [initRFID] *)

(** X18. [initRFID] sends exactly one message to the UI, a CONNECT message
    without the backend-error flag; it carries the device-error flag exactly
    when quit is signalled, and the reader of the device connection is
    started exactly when it is not. *)
Theorem initRFID_reports_once (w : InitEnv) :
  exists m,
    initUIMsgs (initRFID w) = [m]
    /\ Action m = "CONNECT"
    /\ SIPError m = false
    /\ RFIDError m = initQuit (initRFID w)
    /\ readerSpawned (initRFID w) = negb (initQuit (initRFID w)).
Proof.
  unfold initRFID. destruct (dialErr w) as [e|]; simpl.
  - eexists. repeat split; reflexivity.
  - destruct (String.eqb (initErrorOf w) ""); simpl;
      eexists; repeat split; reflexivity.
Qed.

(** X19. The station is connected (no quit, reader started) only if the
    dial succeeded and the device answered OK to the version command; and
    a failed dial writes nothing to the device and reports the text of the
    dial error. *)
Theorem initRFID_connects_only_after_ok (w : InitEnv) :
  (initQuit (initRFID w) = false ->
   dialErr w = None /\ Resp.OK (fst (initParse w)) = true
   /\ initWrites (initRFID w) = [cmdInitVersion])
  /\ (forall e, dialErr w = Some e ->
      initWrites (initRFID w) = []
      /\ initUIMsgs (initRFID w) = [connectRFIDError e]
      /\ initQuit (initRFID w) = true).
Proof.
  split.
  - unfold initRFID. destruct (dialErr w) as [e|]; simpl; [discriminate|].
    destruct (String.eqb (initErrorOf w) "") eqn:He; simpl; [|discriminate].
    intros _. split; [done|]. split; [|done].
    unfold initErrorOf in He.
    destruct (Resp.OK (initParse w).1); [done|].
    match type of He with
    | context [String.eqb ?x "" && _] => destruct (String.eqb x "") eqn:He'
    end; simpl in He; [discriminate He|].
    rewrite He' in He. discriminate He.
  - intros e He. unfold initRFID. rewrite He. done.
Qed.

Lemma initRFID_connects_only_after_ok_witness :
  dialErr {| dialErr := None; initWriteErr := None; initReadErr := None;
             initParse := (respOK "" "", None) |} = None
  /\ Resp.OK (fst (initParse {| dialErr := None; initWriteErr := None;
                               initReadErr := None;
                               initParse := (respOK "" "", None) |})) = true
  /\ initWrites (initRFID {| dialErr := None; initWriteErr := None;
                            initReadErr := None;
                            initParse := (respOK "" "", None) |}) = [cmdInitVersion].
Proof.
  apply (initRFID_connects_only_after_ok
           {| dialErr := None; initWriteErr := None; initReadErr := None;
              initParse := (respOK "" "", None) |}).
  reflexivity.
Defined.

(** X20. After a successful dial, the error [initRFID] reports is the last
    one that occurred: a parse error hides a read error and a write error,
    and a read error hides a write error, even when the response parsed says
    OK. Only when no step failed does a response that is not OK give the
    text "RFID-unit responded with NOK". The texts are non-empty. *)
Theorem initRFID_reports_last_error (w : InitEnv) (e : string) :
  dialErr w = None ->
  e <> "" ->
  (snd (initParse w) = Some e
   \/ (snd (initParse w) = None /\ initReadErr w = Some e)
   \/ (snd (initParse w) = None /\ initReadErr w = None /\ initWriteErr w = Some e)
   \/ (snd (initParse w) = None /\ initReadErr w = None /\ initWriteErr w = None
       /\ Resp.OK (fst (initParse w)) = false /\ e = "RFID-unit responded with NOK")) ->
  initUIMsgs (initRFID w) = [connectRFIDError e]
  /\ initQuit (initRFID w) = true
  /\ readerSpawned (initRFID w) = false.
Proof.
  intros Hd Hne Hcase.
  assert (initErrorOf w = e) as He.
  { unfold initErrorOf.
    destruct Hcase as [Hp|[[Hp Hr]|[(Hp & Hr & Hw)|(Hp & Hr & Hw & Hok & ->)]]].
    - rewrite Hp. simpl. apply String.eqb_neq in Hne. by rewrite Hne.
    - rewrite Hp, Hr. simpl. apply String.eqb_neq in Hne. by rewrite Hne.
    - rewrite Hp, Hr, Hw. simpl. apply String.eqb_neq in Hne. by rewrite Hne.
    - rewrite Hp, Hr, Hw, Hok. reflexivity. }
  unfold initRFID. rewrite Hd, He.
  apply String.eqb_neq in Hne. rewrite Hne. done.
Qed.

Lemma initRFID_reports_last_error_witness :
  initUIMsgs (initRFID {| dialErr := None; initWriteErr := Some "write: broken pipe";
                          initReadErr := Some "read: timeout";
                          initParse := (respOK "" "", None) |})
    = [connectRFIDError "read: timeout"]
  /\ initQuit (initRFID {| dialErr := None; initWriteErr := Some "write: broken pipe";
                           initReadErr := Some "read: timeout";
                           initParse := (respOK "" "", None) |}) = true
  /\ readerSpawned (initRFID {| dialErr := None;
                                initWriteErr := Some "write: broken pipe";
                                initReadErr := Some "read: timeout";
                                initParse := (respOK "" "", None) |}) = false.
Proof.
  apply (initRFID_reports_last_error
           {| dialErr := None; initWriteErr := Some "write: broken pipe";
              initReadErr := Some "read: timeout";
              initParse := (respOK "" "", None) |} "read: timeout").
  - reflexivity.
  - discriminate.
  - right. left. split; reflexivity.
Defined.

(** ** The readers *)

(** X21. [readFromRFID] passes on the responses of the frames it reads, in
    order, up to the first read or parse failure; at that failure it sends
    the UI the CONNECT message with the device-error flag and the text of
    the error, signals quit once and reads nothing more. Without a failure
    it sends nothing to the UI and signals no quit. *)
Theorem readFromRFID_forwards_until_failure
    (resps : list RFIDResp) (e : string) (rest : list RFIDRead) :
  readFromRFID ((Frame <$> resps) ++ ReadFailed e :: rest)
    = (resps, [ToKoha (connectRFIDError e); QuitSignal])
  /\ readFromRFID ((Frame <$> resps) ++ ParseFailed e :: rest)
     = (resps, [ToKoha (connectRFIDError e); QuitSignal])
  /\ readFromRFID (Frame <$> resps) = (resps, []).
Proof.
  induction resps as [|r resps (IH1 & IH2 & IH3)]; [done|].
  rewrite fmap_cons. simpl. by rewrite IH1, IH2, IH3.
Qed.

Lemma readFromKoha_app (pre rest : list KohaRead) :
  forallb (fun r => negb (isReadFailure r)) pre = true ->
  readFromKoha (pre ++ rest)
  = ((decodedOf pre ++ fst (readFromKoha rest))%list, snd (readFromKoha rest)).
Proof.
  induction pre as [|r pre IH]; simpl.
  - intros _. by destruct (readFromKoha rest).
  - destruct r; simpl; try discriminate; intros Hp; rewrite (IH Hp); done.
Qed.

(** X22. [readFromKoha] passes on the messages of the well-formed frames, in
    order, and drops a malformed frame without leaving its loop: as long as
    no read fails the connection is not closed. At the first failed read it
    stops, nothing read later is passed on, and the deferred disconnect and
    close run. *)
Theorem readFromKoha_drops_malformed_frames (pre rest : list KohaRead) :
  forallb (fun r => negb (isReadFailure r)) pre = true ->
  readFromKoha pre = (decodedOf pre, false)
  /\ readFromKoha (pre ++ KohaReadFailed :: rest) = (decodedOf pre, true)
  /\ length (decodedOf pre) <= length pre.
Proof.
  intros Hp. split; [|split].
  - rewrite <- (app_nil_r pre) at 1. rewrite (readFromKoha_app pre [] Hp).
    simpl. by rewrite app_nil_r.
  - rewrite (readFromKoha_app pre _ Hp). simpl. by rewrite app_nil_r.
  - clear. induction pre as [|r pre IH]; simpl; [lia|].
    destruct r; simpl; lia.
Qed.

Lemma readFromKoha_drops_malformed_frames_witness :
  readFromKoha [Decoded (uiCheckin "B1"); Malformed; Decoded (uiAction "END")]
    = (decodedOf [Decoded (uiCheckin "B1"); Malformed; Decoded (uiAction "END")], false)
  /\ readFromKoha ([Decoded (uiCheckin "B1"); Malformed; Decoded (uiAction "END")]
                   ++ KohaReadFailed :: [Decoded (uiCheckin "B2")])
     = (decodedOf [Decoded (uiCheckin "B1"); Malformed; Decoded (uiAction "END")], true)
  /\ length (decodedOf [Decoded (uiCheckin "B1"); Malformed; Decoded (uiAction "END")])
     <= length [Decoded (uiCheckin "B1"); Malformed; Decoded (uiAction "END")].
Proof.
  apply (readFromKoha_drops_malformed_frames
           [Decoded (uiCheckin "B1"); Malformed; Decoded (uiAction "END")]
           [Decoded (uiCheckin "B2")]).
  reflexivity.
Defined.

(** ** When the maps are written *)

(** X23. A turn changes [failedAlarmOn] only when it writes the alarm-on
    command, and then that command is the only one it writes: no UI
    message, no failed scan and no unknown or failed item adds or replaces a
    retry entry. *)
Theorem retry_entry_written_only_with_alarm_on (env : Env) (i : Input) (c : Client) :
  failedAlarmOn (after (step env i c)) = failedAlarmOn c
  \/ deviceCmds (trace (step env i c)) = [cmdAlarmOn].
Proof. step_cases env i c; auto. Qed.

(** X24. A turn changes [items] only while scanning and on a device
    response, and what it stores under the normalised barcode of that
    response is the value [c.current] has at the end of the turn. *)
Theorem item_written_only_on_scan (env : Env) (i : Input) (c : Client) :
  items (after (step env i c)) = items c
  \/ (state c = RFIDCheckin
      /\ exists resp,
           i = FromRFID resp
           /\ items (after (step env i c))
              = <[stripLeading10 (Resp.Barcode resp) := current (after (step env i c))]>
                  (items c)).
Proof.
  destruct i as [msg|resp|].
  - left. koha_cases msg; act_unfold; simpl; world_cases env; done.
  - act_unfold. destruct (state c) eqn:Hst; simpl; auto.
    + destruct (Resp.OK resp); simpl; auto.
    + destruct (Resp.OK resp); simpl; world_cases env; auto;
        right; (split; [done|]); by exists resp.
  - left. done.
Qed.

(** ** Totals over a whole [Run] *)

Lemma readFromRFID_effects (reads : list RFIDRead) :
  snd (readFromRFID reads) = []
  \/ exists e, snd (readFromRFID reads) = [ToKoha (connectRFIDError e); QuitSignal].
Proof.
  induction reads as [|r reads IH]; [by left|].
  destruct r as [e|e|resp]; simpl.
  - right. by exists e.
  - right. by exists e.
  - by destruct (readFromRFID reads).
Qed.

Lemma step_quit_connect_error (env : Env) (i : Input) (c : Client) :
  quitSignalled (trace (step env i c))
  = existsb isConnectError (uiMsgs (trace (step env i c)))
  /\ List.filter isPlainConnect (uiMsgs (trace (step env i c))) = [].
Proof. step_cases env i c; simpl; done. Qed.

Lemma loop_quit_connect_error (env : Env) (inputs : list Input) (c : Client) :
  quitSignalled (trace (run env inputs c))
  = existsb isConnectError (uiMsgs (trace (run env inputs c)))
  /\ List.filter isPlainConnect (uiMsgs (trace (run env inputs c))) = [].
Proof.
  apply (run_trace_closed env
    (fun t => quitSignalled t = existsb isConnectError (uiMsgs t)
              /\ List.filter isPlainConnect (uiMsgs t) = [])).
  - done.
  - intros t1 t2 [H1 H1'] [H2 H2'].
    rewrite quitSignalled_app, uiMsgs_app, existsb_app, List.filter_app, H1, H2, H1', H2'.
    done.
  - intros i c'. apply step_quit_connect_error.
Qed.

(** X4. Over a whole [Run], the device is written once by the handshake
    when the dial succeeded (the version command) and not at all when it
    failed, never by the reader, and at most once for each input the loop
    handles; backend calls are made only by the loop, at most one for each
    input. So a run writes at most one command more than it handles
    inputs. *)
Theorem Run_one_command_per_input
    (w : InitEnv) (reads : list RFIDRead) (env : Env)
    (inputs : list Input) (c : Client) :
  allDeviceCmds (Run w reads env inputs c)
    = (match dialErr w with Some _ => [] | None => [cmdInitVersion] end
       ++ deviceCmds (trace (run env inputs c)))%list
  /\ length (deviceCmds (trace (run env inputs c))) <= length inputs
  /\ length (allDeviceCmds (Run w reads env inputs c)) <= S (length inputs)
  /\ allSIPCalls (Run w reads env inputs c) = sipCalls (trace (run env inputs c))
  /\ length (allSIPCalls (Run w reads env inputs c)) <= length inputs.
Proof.
  destruct (loop_one_command_per_input env inputs c) as [Hd Hs].
  assert (deviceCmds (reader (Run w reads env inputs c)) = []
          /\ sipCalls (reader (Run w reads env inputs c)) = []) as [Hr Hr'].
  { cbv [Run reader]. destruct (readerSpawned (initRFID w)); [|done].
    destruct (readFromRFID_effects reads) as [->|[e ->]]; done. }
  assert (initWrites (initRFID w)
          = match dialErr w with Some _ => [] | None => [cmdInitVersion] end) as Hw.
  { unfold initRFID. destruct (dialErr w); simpl; [done|].
    by destruct (negb (String.eqb (initErrorOf w) "")). }
  unfold allDeviceCmds, allSIPCalls. rewrite Hr, Hr'.
  change (handshake (Run w reads env inputs c)) with (initRFID w).
  change (loop (Run w reads env inputs c)) with (trace (run env inputs c)).
  rewrite Hw, !app_nil_l.
  repeat split; try done.
  destruct (dialErr w); simpl; lia.
Qed.

(** X5. Over a whole [Run] (handshake, reader and loop), quit is signalled
    exactly when a CONNECT message that carries the device-error or the
    backend-error flag was sent to the UI; and the only CONNECT message
    without an error flag is the one the handshake sends when it succeeded:
    it is sent once in that case and never otherwise. *)
Theorem Run_quit_iff_connect_error
    (w : InitEnv) (reads : list RFIDRead) (env : Env)
    (inputs : list Input) (c : Client) :
  anyQuit (Run w reads env inputs c)
    = existsb isConnectError (allUIMsgs (Run w reads env inputs c))
  /\ List.filter isPlainConnect (allUIMsgs (Run w reads env inputs c))
     = (if initQuit (initRFID w) then [] else [withAction "CONNECT" zeroMessage]).
Proof.
  destruct (loop_quit_connect_error env inputs c) as [Hl Hl'].
  assert (quitSignalled (reader (Run w reads env inputs c))
          = existsb isConnectError (uiMsgs (reader (Run w reads env inputs c)))
          /\ List.filter isPlainConnect (uiMsgs (reader (Run w reads env inputs c))) = [])
    as [Hr Hr'].
  { cbv [Run reader]. destruct (readerSpawned (initRFID w)); [|done].
    destruct (readFromRFID_effects reads) as [->|[e ->]]; done. }
  assert (initQuit (initRFID w) = existsb isConnectError (initUIMsgs (initRFID w))
          /\ List.filter isPlainConnect (initUIMsgs (initRFID w))
             = (if initQuit (initRFID w) then [] else [withAction "CONNECT" zeroMessage]))
    as [Hh Hh'].
  { unfold initRFID. destruct (dialErr w); simpl; [done|].
    by destruct (negb (String.eqb (initErrorOf w) "")). }
  unfold anyQuit, allUIMsgs.
  rewrite !existsb_app, !List.filter_app.
  change (handshake (Run w reads env inputs c)) with (initRFID w).
  change (loop (Run w reads env inputs c)) with (trace (run env inputs c)).
  rewrite <- Hh, <- Hr, <- Hl, Hh', Hr', Hl', !app_nil_r.
  split; [|done]. by rewrite orb_assoc.
Qed.
